(** * Oops storefront: cart, pricing, checkout and mock authentication

    A shallow embedding of the storefront script (the version with the
    wholesale login gate): the three records kept in [localStorage], the
    Auth and Cart services, and the two rendering paths that price a cart.

    JavaScript numbers are IEEE 754 binary64 values.  They are modelled by
    the Standard Library's executable specification of binary floating
    point, [spec_float], at precision 53 and maximal exponent 1024, so that
    [+], [*], [-] and the comparisons round and compare as the script's
    do. *)

From Stdlib Require Import ZArith List String Ascii Bool Lia.
From Stdlib Require Import SpecFloat DecimalString QArith Qpower Qfield.
Import ListNotations.

Local Open Scope string_scope.
Local Open Scope list_scope.
Local Open Scope Z_scope.

(** ** JavaScript numbers *)

Module JSNumber.

Definition t := spec_float.

Definition prec : Z := 53.
Definition emax : Z := 1024.

Definition add : t -> t -> t := SFadd prec emax.
Definition sub : t -> t -> t := SFsub prec emax.
Definition mul : t -> t -> t := SFmul prec emax.
Definition div : t -> t -> t := SFdiv prec emax.

(** [x < y], [x >= y] and [x > y]: all false when an operand is NaN. *)
Definition lt (x y : t) : bool := SFltb x y.
Definition ge (x y : t) : bool := SFleb y x.
Definition gt (x y : t) : bool := SFltb y x.

(** The number denoted by an integer literal. *)
Definition ofZ (z : Z) : t := binary_normalize prec emax z 0 false.

(** The number denoted by a decimal literal [num / 10^digits]: the
    binary64 value nearest to it (both operands of the division are
    exact, and the division rounds to nearest-even). *)
Definition decimal (num : Z) (digits : nat) : t :=
  div (ofZ num) (ofZ (10 ^ Z.of_nat digits)).

(** [Math.max(x, y)]: NaN when an operand is NaN, [+0] above [-0]. *)
Definition max (x y : t) : t :=
  match x, y with
  | S754_nan, _ | _, S754_nan => S754_nan
  | S754_zero sx, S754_zero sy => S754_zero (sx && sy)
  | _, _ => if SFltb x y then y else x
  end.

(** The text of [x.toFixed(f)].  Values of magnitude [10^21] and above
    are printed by the script's engine in exponent notation; they are
    kept as [Exponent x]. *)
Inductive text :=
| Digits (s : string)
| Exponent (x : t).

Definition decimalOfZ (n : Z) : string :=
  NilZero.string_of_uint (N.to_uint (Z.to_N n)).

Fixpoint zeros (n : nat) : string :=
  match n with
  | O => EmptyString
  | S n' => String "0" (zeros n')
  end.

(** [n] written with at least [f + 1] digits and a point before the
    last [f] of them. *)
Definition pointed (f : nat) (n : Z) : string :=
  let m := decimalOfZ n in
  match f with
  | O => m
  | _ =>
      let k := String.length m in
      let m := if Nat.leb k f then (zeros (f + 1 - k) ++ m)%string else m in
      let k := String.length m in
      (substring 0 (k - f) m ++ "." ++ substring (k - f) f m)%string
  end.

(** The integer [n] for which [n / 10^f - m * 2^e] is closest to zero,
    the larger one when two are as close. *)
Definition scaled (f : nat) (m : positive) (e : Z) : Z :=
  let p := 10 ^ Z.of_nat f in
  if 0 <=? e then Z.pos m * 2 ^ e * p
  else (2 * Z.pos m * p + 2 ^ (- e)) / 2 ^ (1 - e).

Definition toFixed (f : nat) (x : t) : text :=
  match x with
  | S754_nan => Digits "NaN"
  | S754_infinity false => Digits "Infinity"
  | S754_infinity true => Digits "-Infinity"
  | S754_zero _ => Digits (pointed f 0)
  | S754_finite s m e =>
      if SFleb (ofZ (10 ^ 21)) (S754_finite false m e) then Exponent x
      else Digits ((if s then "-" else "") ++ pointed f (scaled f m e))%string
  end.

End JSNumber.

(** ** Data model *)

(** A registered wholesaler: [{ email, phone, company, password }]. *)
Module User.
Record t := mk { email : string; phone : string; company : string; password : string }.
End User.

(** The session record: [{ email }]. *)
Module Session.
Record t := mk { email : string }.
End Session.

(** What an add-to-cart button carries: [{ id, name, price }]. *)
Module Product.
Record t := mk { id : string; name : string; price : JSNumber.t }.
End Product.

(** A cart line: [{ id, name, price, quantity }]. *)
Module CartItem.
Record t := mk { id : string; name : string; price : JSNumber.t; quantity : JSNumber.t }.

(** [{ ...product, quantity: q }] *)
Definition ofProduct (product : Product.t) (q : JSNumber.t) : t :=
  mk (Product.id product) (Product.name product) (Product.price product) q.

(** The same line with [quantity] assigned. *)
Definition setQuantity (q : JSNumber.t) (item : t) : t :=
  mk (id item) (name item) (price item) q.
End CartItem.

Definition Cart := list CartItem.t.

(** ** Numbers in JSON text

    The cart is kept as JSON text.  [JSON.stringify] writes a finite
    number so that [JSON.parse] reads the same number back, with one
    exception: [-0] is written [0].  NaN and the two infinities are
    written [null]. *)

(** The numbers that come back from JSON text as they went in. *)
Definition jsonExact (x : JSNumber.t) : bool :=
  match x with
  | S754_zero s => negb s
  | S754_finite _ _ _ => true
  | S754_infinity _ | S754_nan => false
  end.

Definition jsonItem (item : CartItem.t) : bool :=
  jsonExact (CartItem.price item) && jsonExact (CartItem.quantity item).

(** The carts that come back from JSON text as they went in. *)
Definition jsonCart (cart : Cart) : bool := forallb jsonItem cart.

(** ** The persisted store

    The three [localStorage] entries, by key, in the shapes the script
    writes: a session object, an array of users, an array of cart lines.
    [None] is an entry that is absent or whose text does not parse: the
    getters then answer [null] (session) or [[]] (users, cart).  Text
    that parses to a value of another shape is not covered.

    The store keeps the records themselves, not their text.  For users
    and sessions, which hold strings only, that is what the text gives
    back.  For a cart it is what the text gives back exactly when the
    cart is a [jsonCart]: [saveCart] below keeps a NaN, an infinity or a
    [-0] as it is, where the script's text would give back [null] or
    [0].  Statements about a price or quantity that an operation writes
    and reads back are made for whole numbers, or for numbers under
    [jsonExact]. *)
Record Store := mkStore {
  oopsSession : option Session.t;
  oopsUsers : option (list User.t);
  oopsCart : option Cart
}.

(** ** What the script writes into the page *)

Record CartRow := mkCartRow {
  row_name : string;
  row_id : string;
  row_quantity : JSNumber.t;
  row_price : JSNumber.text;
  row_total : JSNumber.text
}.

(** The "Subtotal" and "Bulk Discount (n%)" lines. *)
Record Breakdown := mkBreakdown {
  subtotalText : JSNumber.text;
  percentText : JSNumber.text;
  discountText : JSNumber.text
}.

Record CartSummary := mkCartSummary {
  itemsShown : JSNumber.t;
  cartBreakdown : option Breakdown;
  grandTotalShown : JSNumber.text;
  (** [false]: the minimum-order warning and the disabled link. *)
  checkoutLinkEnabled : bool
}.

Inductive CartMarkup :=
| CartLoginRequired
| CartEmpty
| CartTable (rows : list CartRow) (summary : CartSummary).

Record OrderLine := mkOrderLine {
  line_quantity : JSNumber.t;
  line_name : string;
  line_total : JSNumber.text
}.

Inductive BlockedReason :=
| NotLoggedIn
| EmptyCart
| BelowMinimum.

Inductive CheckoutMarkup :=
| Blocked (reason : BlockedReason)
| Ready (lines : list OrderLine) (breakdown : option Breakdown)
        (orderTotal : JSNumber.text).

Inductive Effect :=
| Alert (message : string)
| Navigate (href : string)
| CartCountText (count : JSNumber.t)
| CartContainerHTML (markup : CartMarkup)
| OrderSummaryHTML (markup : CheckoutMarkup)
| HideCheckoutForm
| ListenCheckoutSubmit
| PricingVisibility (loggedIn : bool).

(** Which of the elements the script looks up exist on the current page. *)
Record Page := mkPage {
  cartContainer : bool;
  orderSummary : bool;
  checkoutForm : bool
}.

Record World := mkWorld {
  storage : Store;
  page : Page;
  trace : list Effect
}.

(** ** A state monad over the browser world *)

Definition M (A : Type) : Type := World -> A * World.

Definition ret {A} (a : A) : M A := fun w => (a, w).

Definition bind {A B} (m : M A) (k : A -> M B) : M B :=
  fun w => let (a, w') := m w in k a w'.

Notation "x <- m ;; k" := (bind m (fun x => k))
  (at level 61, m at next level, right associativity).
Notation "m ;; k" := (bind m (fun _ => k))
  (at level 61, right associativity).

Definition readStore {A} (f : Store -> A) : M A :=
  fun w => (f (storage w), w).

Definition writeStore (f : Store -> Store) : M unit :=
  fun w => (tt, mkWorld (f (storage w)) (page w) (trace w)).

Definition emit (e : Effect) : M unit :=
  fun w => (tt, mkWorld (storage w) (page w) (trace w ++ [e])).

Definition getElementById (which : Page -> bool) : M bool :=
  fun w => (which (page w), w).

(** The world after running [m]. *)
Definition exec {A} (m : M A) (w : World) : World := snd (m w).

(** The value [m] returns. *)
Definition result {A} (m : M A) (w : World) : A := fst (m w).

(** ** Session and user directory *)

(** [!s] for a string: only the empty string is falsy. *)
Definition falsy (s : string) : bool :=
  match s with
  | EmptyString => true
  | String _ _ => false
  end.

Definition getSession : M (option Session.t) := readStore oopsSession.

(** [setItem] for a session object, [removeItem] for [null]. *)
Definition saveSession (session : option Session.t) : M unit :=
  writeStore (fun s => mkStore session (oopsUsers s) (oopsCart s)).

Definition isLoggedIn : M bool :=
  session <- getSession ;;
  ret (match session with Some _ => true | None => false end).

Definition getUsers : M (list User.t) :=
  readStore (fun s => match oopsUsers s with Some users => users | None => [] end).

Definition saveUsers (users : list User.t) : M unit :=
  writeStore (fun s => mkStore (oopsSession s) (Some users) (oopsCart s)).

(** [registerUser({ email, phone, company, password })]: [None] is the
    script's [false]. *)
Definition registerUser (details : User.t) : M (option User.t) :=
  let email := User.email details in
  let phone := User.phone details in
  let company := User.company details in
  let password := User.password details in
  users <- getUsers ;;
  if falsy email || falsy phone || falsy company || falsy password
  then ret None
  else
    match find (fun u => String.eqb (User.email u) email) users with
    | Some _ => ret None
    | None =>
        let newUser := User.mk email phone company password in
        saveUsers (users ++ [newUser]) ;;
        saveSession (Some (Session.mk email)) ;;
        ret (Some newUser)
    end.

Definition loginUser (email password : string) : M bool :=
  users <- getUsers ;;
  match find (fun u => String.eqb (User.email u) email
                       && String.eqb (User.password u) password) users with
  | Some _ =>
      saveSession (Some (Session.mk email)) ;;
      ret true
  | None => ret false
  end.

Definition logoutUser : M unit := saveSession None.

(** ** Cart service *)

Definition getCart : M Cart :=
  readStore (fun s => match oopsCart s with Some cart => cart | None => [] end).

(** The store takes the cart as it is; see the note on JSON text at
    [Store] for the numbers on which this is the script's
    [JSON.stringify]. *)
Definition saveCart (cart : Cart) : M unit :=
  writeStore (fun s => mkStore (oopsSession s) (oopsUsers s) (Some cart)).

(** [cart.reduce((sum, item) => sum + item.quantity, 0)] *)
Definition sumQuantity (cart : Cart) : JSNumber.t :=
  fold_left (fun sum item => JSNumber.add sum (CartItem.quantity item))
            cart (JSNumber.ofZ 0).

Definition updateCartCount : M unit :=
  cart <- getCart ;;
  let count := sumQuantity cart in
  emit (CartCountText count).

Definition hasId (id : string) (item : CartItem.t) : bool :=
  String.eqb (CartItem.id item) id.

(** The array after an assignment to a field of the object that
    [cart.find(p)] returned: the first element satisfying [p] is the one
    that changed. *)
Fixpoint assignFound (p : CartItem.t -> bool) (changed : CartItem.t)
    (cart : Cart) : Cart :=
  match cart with
  | [] => []
  | item :: rest =>
      if p item then changed :: rest
      else item :: assignFound p changed rest
  end.

Definition addToCart (product : Product.t) : M unit :=
  loggedIn <- isLoggedIn ;;
  if negb loggedIn then
    emit (Alert "Please log in or register as a wholesaler to see pricing and place orders.") ;;
    emit (Navigate "login.html")
  else
    cart <- getCart ;;
    let found := hasId (Product.id product) in
    (match find found cart with
     | Some existing =>
         let quantity := JSNumber.add (CartItem.quantity existing) (JSNumber.ofZ 1) in
         saveCart (assignFound found (CartItem.setQuantity quantity existing) cart)
     | None =>
         saveCart (cart ++ [CartItem.ofProduct product (JSNumber.ofZ 1)])
     end) ;;
    updateCartCount ;;
    emit (Alert (Product.name product ++ " has been added to your cart.")%string).

(** ** Cart view *)

(** The values of the locals a rendering path computes from the cart.  In
    [renderCart] they are [totalQty], [discountRate], [grandTotalRaw],
    [discountAmount] and [grandTotal] (a text); in [renderCheckout] they
    are [totalQty], [discountRate], [subtotal], [discountAmount] and
    [total], whose text is what the "Order Total" line shows. *)
Record Pricing := mkPricing {
  totalQuantity : JSNumber.t;
  discountRate : JSNumber.t;
  subtotal : JSNumber.t;
  discountAmount : JSNumber.t;
  grandTotal : JSNumber.t;
  grandTotalText : JSNumber.text
}.

(** The pricing locals of [renderCart]. *)
Definition renderCart_pricing (cart : Cart) : Pricing :=
  let totalQty := sumQuantity cart in
  let discountRate :=
    if JSNumber.ge totalQty (JSNumber.ofZ 500) then JSNumber.decimal 2 1
    else if JSNumber.ge totalQty (JSNumber.ofZ 300) then JSNumber.decimal 15 2
    else if JSNumber.ge totalQty (JSNumber.ofZ 200) then JSNumber.decimal 1 1
    else if JSNumber.ge totalQty (JSNumber.ofZ 100) then JSNumber.decimal 5 2
    else JSNumber.ofZ 0 in
  let grandTotalRaw :=
    fold_left (fun sum item =>
                 JSNumber.add sum (JSNumber.mul (CartItem.price item)
                                                (CartItem.quantity item)))
              cart (JSNumber.ofZ 0) in
  let discountAmount := JSNumber.mul grandTotalRaw discountRate in
  let grandTotal := JSNumber.sub grandTotalRaw discountAmount in
  mkPricing totalQty discountRate grandTotalRaw discountAmount
            grandTotal (JSNumber.toFixed 2 grandTotal).

Definition cartRow (item : CartItem.t) : CartRow :=
  let itemTotal :=
    JSNumber.toFixed 2 (JSNumber.mul (CartItem.price item) (CartItem.quantity item)) in
  mkCartRow (CartItem.name item) (CartItem.id item) (CartItem.quantity item)
            (JSNumber.toFixed 2 (CartItem.price item)) itemTotal.

Definition breakdownOf (subtotal discountRate discountAmount : JSNumber.t)
    : option Breakdown :=
  if JSNumber.gt discountRate (JSNumber.ofZ 0) then
    Some (mkBreakdown
            (JSNumber.toFixed 2 subtotal)
            (JSNumber.toFixed 0 (JSNumber.mul discountRate (JSNumber.ofZ 100)))
            (JSNumber.toFixed 2 discountAmount))
  else None.

Definition cartTable (cart : Cart) : CartMarkup :=
  let p := renderCart_pricing cart in
  CartTable (map cartRow cart)
    (mkCartSummary (totalQuantity p)
       (breakdownOf (subtotal p) (discountRate p) (discountAmount p))
       (grandTotalText p)
       (negb (JSNumber.lt (totalQuantity p) (JSNumber.ofZ 50)))).

Definition renderCart : M unit :=
  container <- getElementById cartContainer ;;
  if negb container then ret tt
  else
    loggedIn <- isLoggedIn ;;
    if negb loggedIn then emit (CartContainerHTML CartLoginRequired)
    else
      cart <- getCart ;;
      if (List.length cart =? 0)%nat then emit (CartContainerHTML CartEmpty)
      else emit (CartContainerHTML (cartTable cart)).

Definition removeFromCart (id : string) : M unit :=
  cart <- getCart ;;
  let cart := filter (fun item => negb (hasId id item)) cart in
  saveCart cart ;;
  updateCartCount ;;
  renderCart.

Definition changeQuantity (id : string) (delta : JSNumber.t) : M unit :=
  cart <- getCart ;;
  match find (hasId id) cart with
  | None => ret tt
  | Some item =>
      let quantity :=
        JSNumber.max (JSNumber.ofZ 1) (JSNumber.add (CartItem.quantity item) delta) in
      saveCart (assignFound (hasId id) (CartItem.setQuantity quantity item) cart) ;;
      updateCartCount ;;
      renderCart
  end.

(** ** Checkout *)

(** The [forEach] of [renderCheckout]: one order line per item, and the
    running [subtotal]. *)
Definition orderLines (cart : Cart) : list OrderLine * JSNumber.t :=
  fold_left
    (fun (acc : list OrderLine * JSNumber.t) item =>
       let (html, subtotal) := acc in
       let itemTotal := JSNumber.mul (CartItem.price item) (CartItem.quantity item) in
       let subtotal := JSNumber.add subtotal itemTotal in
       ((html ++ [mkOrderLine (CartItem.quantity item) (CartItem.name item)
                              (JSNumber.toFixed 2 itemTotal)]),
        subtotal))
    cart ([], JSNumber.ofZ 0).

(** The pricing locals of [renderCheckout], past its three guards. *)
Definition renderCheckout_pricing (cart : Cart) : Pricing :=
  let totalQty := sumQuantity cart in
  let discountRate :=
    if JSNumber.ge totalQty (JSNumber.ofZ 500) then JSNumber.decimal 2 1
    else if JSNumber.ge totalQty (JSNumber.ofZ 300) then JSNumber.decimal 15 2
    else if JSNumber.ge totalQty (JSNumber.ofZ 200) then JSNumber.decimal 1 1
    else if JSNumber.ge totalQty (JSNumber.ofZ 100) then JSNumber.decimal 5 2
    else JSNumber.ofZ 0 in
  let subtotal := snd (orderLines cart) in
  let discountAmount := JSNumber.mul subtotal discountRate in
  let total := JSNumber.sub subtotal discountAmount in
  mkPricing totalQty discountRate subtotal discountAmount
            total (JSNumber.toFixed 2 total).

Definition orderSummaryOf (cart : Cart) : CheckoutMarkup :=
  let p := renderCheckout_pricing cart in
  Ready (fst (orderLines cart))
        (breakdownOf (subtotal p) (discountRate p) (discountAmount p))
        (grandTotalText p).

Definition blocked (reason : BlockedReason) : M unit :=
  emit (OrderSummaryHTML (Blocked reason)) ;;
  emit HideCheckoutForm.

Definition renderCheckout : M unit :=
  summaryContainer <- getElementById orderSummary ;;
  form <- getElementById checkoutForm ;;
  if negb summaryContainer || negb form then ret tt
  else
    loggedIn <- isLoggedIn ;;
    if negb loggedIn then blocked NotLoggedIn
    else
      cart <- getCart ;;
      if (List.length cart =? 0)%nat then blocked EmptyCart
      else
        let totalQty := sumQuantity cart in
        if JSNumber.lt totalQty (JSNumber.ofZ 50) then blocked BelowMinimum
        else
          emit (OrderSummaryHTML (orderSummaryOf cart)) ;;
          emit ListenCheckoutSubmit.

(** The listener [renderCheckout] attaches to the form's [submit]. *)
Definition checkoutSubmit : M unit :=
  emit (Alert "Thank you for your purchase! Your order has been placed.") ;;
  saveCart [] ;;
  updateCartCount ;;
  emit (Navigate "index.html").

Definition updatePricingVisibility : M unit :=
  loggedIn <- isLoggedIn ;;
  emit (PricingVisibility loggedIn).

(** The click listener of the "Logout" link. *)
Definition logoutClick : M unit :=
  logoutUser ;;
  saveCart [] ;;
  updateCartCount ;;
  updatePricingVisibility ;;
  emit (Navigate "index.html").

(** ** The pricing rules as the specification words them *)

(** The tier table: lower bound on the total quantity, and rate. *)
Definition discountTiers : list (Z * JSNumber.t) :=
  [ (500, JSNumber.decimal 20 2);
    (300, JSNumber.decimal 15 2);
    (200, JSNumber.decimal 10 2);
    (100, JSNumber.decimal 5 2) ].

(** A tier qualifies when the total reaches its lower bound (inclusive). *)
Definition qualifies (totalQty : JSNumber.t) (tier : Z * JSNumber.t) : bool :=
  JSNumber.ge totalQty (JSNumber.ofZ (fst tier)).

Definition higherTier (a b : Z * JSNumber.t) : Z * JSNumber.t :=
  if fst a <? fst b then b else a.

(** The rate of the highest qualifying tier, [0.00] when none qualifies. *)
Definition tierRate (totalQty : JSNumber.t) : JSNumber.t :=
  match filter (qualifies totalQty) discountTiers with
  | [] => JSNumber.decimal 0 2
  | tier :: tiers => snd (fold_left higherTier tiers tier)
  end.

(** The sum of [terms], taken in order, on top of [from]. *)
Fixpoint sigma (terms : list JSNumber.t) (from : JSNumber.t) : JSNumber.t :=
  match terms with
  | [] => from
  | x :: rest => sigma rest (JSNumber.add from x)
  end.

Definition lineTotal (item : CartItem.t) : JSNumber.t :=
  JSNumber.mul (CartItem.price item) (CartItem.quantity item).

(** A cart of one line. *)
Definition singleItem (id name : string) (price quantity : Z) : Cart :=
  [CartItem.mk id name (JSNumber.ofZ price) (JSNumber.ofZ quantity)].

(** ** Whole quantities

    The script only ever stores whole quantities: 1 on the first add, then
    steps of 1.  Whole numbers below [2^53] are exact in binary64. *)

(** The binary64 form of a whole number of magnitude [p] below [2^53]:
    the mantissa shifted up to 53 bits. *)
Definition canon (sx : bool) (p : positive) : spec_float :=
  let d := Zpos (digits2_pos p) in
  S754_finite sx (Z.to_pos (Zpos p * 2 ^ (53 - d))) (d - 53).

Definition totalOf (qs : list Z) : Z := fold_right Z.add 0 qs.

(** The quantities of [cart] are the whole numbers [qs], none negative,
    with a total below [2^53]. *)
Definition wholeQuantities (cart : Cart) (qs : list Z) : Prop :=
  map CartItem.quantity cart = map JSNumber.ofZ qs
  /\ Forall (fun q => 0 <= q) qs
  /\ totalOf qs < 2 ^ 53.

(** The tier table read on a whole total. *)
Definition stepRate (totalQty : Z) : JSNumber.t :=
  if 500 <=? totalQty then JSNumber.decimal 20 2
  else if 300 <=? totalQty then JSNumber.decimal 15 2
  else if 200 <=? totalQty then JSNumber.decimal 10 2
  else if 100 <=? totalQty then JSNumber.decimal 5 2
  else JSNumber.decimal 0 2.

(** ** Statements about the services *)

(** Running [op] while nobody is logged in leaves the cart record as it
    was. *)
Definition gated (op : M unit) : Prop :=
  forall w : World,
    result isLoggedIn w = false ->
    oopsCart (storage (exec op w)) = oopsCart (storage w).

(** No two items of the cart have the same id. *)
Definition uniqueIds (cart : Cart) : Prop := NoDup (map CartItem.id cart).

(** What [renderCheckout] adds to the page when it blocks. *)
Definition blockedBy (reason : BlockedReason) : list Effect :=
  [OrderSummaryHTML (Blocked reason); HideCheckoutForm].

(** What it adds when the order can be placed. *)
Definition readyWith (cart : Cart) : list Effect :=
  [OrderSummaryHTML (orderSummaryOf cart); ListenCheckoutSubmit].

(** ** Sample worlds *)

(** A world nobody is logged in to, with a cart left in the store. *)
Definition guestWorld : World :=
  mkWorld
    (mkStore None None
       (Some [CartItem.mk "a" "Test kit" (JSNumber.ofZ 10) (JSNumber.ofZ 3)]))
    (mkPage true false false)
    [].

(** Two lines, 120 and 180 units. *)
Definition twoLines : Cart :=
  [CartItem.mk "a" "Test kit" (JSNumber.ofZ 10) (JSNumber.ofZ 120);
   CartItem.mk "b" "Refill" (JSNumber.ofZ 4) (JSNumber.ofZ 180)].

(** A registered wholesaler. *)
Definition buyer : User.t :=
  User.mk "buyer@oops.test" "555-0100" "Oops Wholesale" "secret".

(** The checkout page, [buyer] logged in, sixty kits in the cart. *)
Definition shopWorld : World :=
  mkWorld
    (mkStore (Some (Session.mk "buyer@oops.test")) (Some [buyer])
             (Some (singleItem "a" "Test kit" 10 60)))
    (mkPage false true true)
    [].

(** The login page: [buyer] is registered, nobody is logged in. *)
Definition loginPage : World :=
  mkWorld (mkStore None (Some [buyer]) None) (mkPage false false false) [].

(** A second wholesaler. *)
Definition clerk : User.t :=
  User.mk "clerk@oops.test" "555-0101" "Oops Retail" "hunter2".

(** The checkout page over a store with [buyer] registered. *)
Definition checkoutPage (session : option Session.t) (cart : option Cart) : World :=
  mkWorld (mkStore session (Some [buyer]) cart) (mkPage false true true) [].

(** Three lines: kits, refills and swabs. *)
Definition threeLines : Cart :=
  [CartItem.mk "a" "Test kit" (JSNumber.ofZ 10) (JSNumber.ofZ 3);
   CartItem.mk "b" "Refill" (JSNumber.ofZ 4) (JSNumber.ofZ 2);
   CartItem.mk "s" "Swab" (JSNumber.decimal 35 1) (JSNumber.ofZ 109)].

(** The cart page, [buyer] logged in, the three lines in the cart. *)
Definition stockWorld : World :=
  mkWorld
    (mkStore (Some (Session.mk "buyer@oops.test")) (Some [buyer]) (Some threeLines))
    (mkPage true false false)
    [].

(** The cart page with nobody logged in and the three lines left in the
    store. *)
Definition guestStock : World :=
  mkWorld (mkStore None (Some [buyer]) (Some threeLines)) (mkPage true false false) [].

(** ** The document's click listener

    One listener on the document serves the add-to-cart buttons, the
    quantity buttons and the remove buttons.  It reads the class list and
    four [data-] attributes of the clicked element. *)

(** What the listener reads from the clicked element; [None] is an
    attribute that is not there ([getAttribute] answers [null]). *)
Record Target := mkTarget {
  classList : list string;
  dataId : option string;
  dataName : option string;
  dataPrice : option string;
  dataAction : option string
}.

(** [target.classList.contains(name)] *)
Definition contains (target : Target) (name : string) : bool :=
  existsb (String.eqb name) (classList target).

Definition isNaN (x : JSNumber.t) : bool :=
  match x with
  | S754_nan => true
  | _ => false
  end.

(** The click listener.  [parseFloat] is the engine's own function, taken
    as it is: the number it reads from the attribute text. *)
Definition onDocumentClick (parseFloat : option string -> JSNumber.t)
    (target : Target) : M unit :=
  (if contains target "add-to-cart" then
     let price := parseFloat (dataPrice target) in
     match dataId target, dataName target with
     | Some id, Some name =>
         if negb (falsy id) && negb (falsy name) && negb (isNaN price)
         then addToCart (Product.mk id name price)
         else ret tt
     | _, _ => ret tt
     end
   else ret tt) ;;
  (if contains target "qty-btn" then
     match dataId target, dataAction target with
     | Some id, Some action =>
         if negb (falsy id) && negb (falsy action)
         then changeQuantity id
                (if String.eqb action "increase" then JSNumber.ofZ 1
                 else JSNumber.ofZ (-1))
         else ret tt
     | _, _ => ret tt
     end
   else ret tt) ;;
  (if contains target "remove-btn" then
     match dataId target with
     | Some id => if negb (falsy id) then removeFromCart id else ret tt
     | None => ret tt
     end
   else ret tt).

(** ** Further statements *)

(** The effects [m] adds to the trace of [w]. *)
Definition rendered {A} (m : M A) (w : World) : list Effect :=
  skipn (List.length (trace w)) (trace (exec m w)).

(** No two users of the directory have the same email. *)
Definition uniqueEmails (users : list User.t) : Prop :=
  NoDup (map User.email users).

(** The quantity of [item] is a whole number from 1 to [bound]. *)
Definition wholeItem (bound : Z) (item : CartItem.t) : Prop :=
  exists q, CartItem.quantity item = JSNumber.ofZ q /\ 1 <= q <= bound.

Definition wholeCart (bound : Z) (cart : Cart) : Prop :=
  Forall (wholeItem bound) cart.

(** The line of the order summary for [item]. *)
Definition orderLine (item : CartItem.t) : OrderLine :=
  mkOrderLine (CartItem.quantity item) (CartItem.name item)
              (JSNumber.toFixed 2 (lineTotal item)).

(** A number that is neither NaN nor infinite. *)
Definition isFinite (x : JSNumber.t) : bool :=
  match x with
  | S754_zero _ | S754_finite _ _ _ => true
  | _ => false
  end.

(** The percentage the discount line names for a whole total. *)
Definition percentLabel (totalQty : Z) : string :=
  if 500 <=? totalQty then "20"
  else if 300 <=? totalQty then "15"
  else if 200 <=? totalQty then "10"
  else "5".

(** The two quantity buttons and the remove button of the line with
    [id], and the add-to-cart button of a product. *)
Definition increaseButton (id : string) : Target :=
  mkTarget ["qty-btn"] (Some id) None None (Some "increase").

Definition decreaseButton (id : string) : Target :=
  mkTarget ["qty-btn"] (Some id) None None (Some "decrease").

Definition removeButton (id : string) : Target :=
  mkTarget ["remove-btn"] (Some id) None None None.

Definition addButton (id name price : string) : Target :=
  mkTarget ["add-to-cart"] (Some id) (Some name) (Some price) None.

(** The cart page, [buyer] logged in, three kits in the cart. *)
Definition cartWorld : World :=
  mkWorld
    (mkStore (Some (Session.mk "buyer@oops.test")) (Some [buyer])
             (Some (singleItem "a" "Test kit" 10 3)))
    (mkPage true false false)
    [].

(** The cart page over the store of [shopWorld]. *)
Definition shopCartPage : World :=
  mkWorld (storage shopWorld) (mkPage true false false) [].

(** A reading of the sample price attribute. *)
Definition parsePrice (text : option string) : JSNumber.t :=
  match text with
  | Some "10" => JSNumber.ofZ 10
  | _ => S754_nan
  end.

(** ** Exact values

    The rational number that a finite binary64 value stands for (0 for
    the others). *)
Definition exactValue (x : JSNumber.t) : Q :=
  match x with
  | S754_finite s m e =>
      ((if s then - (1 # 1) else 1 # 1) * (Z.pos m # 1) * Qpower (2 # 1) e)%Q
  | _ => 0%Q
  end.

(** The three pricing equations as the specification writes them,
    [subtotal = sum of price x quantity],
    [discountAmount = subtotal x discountRate] and
    [grandTotal = subtotal - discountAmount], read on exact values. *)
Definition exactEquations (cart : Cart) (p : Pricing) : Prop :=
  (exactValue (subtotal p)
   == fold_right (fun item sum =>
                    exactValue (CartItem.price item)
                    * exactValue (CartItem.quantity item) + sum)
                 0 cart
   /\ exactValue (discountAmount p)
      == exactValue (subtotal p) * exactValue (discountRate p)
   /\ exactValue (grandTotal p)
      == exactValue (subtotal p) - exactValue (discountAmount p))%Q.

(** 109 swabs at 3.50, and three labels at 0.10. *)
Definition swabs : Cart :=
  [CartItem.mk "s" "Swab" (JSNumber.decimal 35 1) (JSNumber.ofZ 109)].

Definition labels : Cart :=
  [CartItem.mk "l" "Label" (JSNumber.decimal 1 1) (JSNumber.ofZ 3)].

(** The prices and quantities of [cart] are the whole numbers [lines]
    (price, then quantity), none negative and each below [2^53], with a
    subtotal and a total quantity below [2^53]. *)
Definition wholeLines (cart : Cart) (lines : list (Z * Z)) : Prop :=
  map CartItem.price cart = map (fun l => JSNumber.ofZ (fst l)) lines
  /\ map CartItem.quantity cart = map (fun l => JSNumber.ofZ (snd l)) lines
  /\ Forall (fun l => 0 <= fst l < 2 ^ 53 /\ 0 <= snd l < 2 ^ 53) lines
  /\ totalOf (map (fun l => fst l * snd l) lines) < 2 ^ 53
  /\ totalOf (map snd lines) < 2 ^ 53.

(** * Properties *)

(** ** Whole numbers in binary64 *)

Lemma Zpos_iter_xO (p n : positive) : Zpos (Pos.iter xO p n) = Zpos p * 2 ^ Zpos n.
Proof.
  induction n as [|n IH] using Pos.peano_ind.
  - simpl. lia.
  - rewrite Pos.iter_succ, (Pos2Z.inj_xO (Pos.iter xO p n)), IH, Pos2Z.inj_succ, Z.pow_succ_r by lia. ring.
Qed.

Lemma digits2_bounds (p : positive) :
  2 ^ (Zpos (digits2_pos p) - 1) <= Zpos p < 2 ^ Zpos (digits2_pos p).
Proof.
  induction p as [p IH|p IH|]; cbn [digits2_pos].
  - rewrite Pos2Z.inj_succ, (Pos2Z.inj_xI p).
    replace (Z.succ (Zpos (digits2_pos p)) - 1) with (Z.succ (Zpos (digits2_pos p) - 1)) by lia.
    rewrite !Z.pow_succ_r by lia.
    revert IH.
    generalize (2 ^ (Z.pos (digits2_pos p) - 1)), (2 ^ Z.pos (digits2_pos p)).
    intros; lia.
  - rewrite Pos2Z.inj_succ, (Pos2Z.inj_xO p).
    replace (Z.succ (Zpos (digits2_pos p)) - 1) with (Z.succ (Zpos (digits2_pos p) - 1)) by lia.
    rewrite !Z.pow_succ_r by lia.
    revert IH.
    generalize (2 ^ (Z.pos (digits2_pos p) - 1)), (2 ^ Z.pos (digits2_pos p)).
    intros; lia.
  - simpl. lia.
Qed.

Lemma digits2_unique (p : positive) (d : Z) :
  2 ^ (d - 1) <= Zpos p < 2 ^ d -> Zpos (digits2_pos p) = d.
Proof.
  intros [Hlo Hhi].
  pose proof (digits2_bounds p) as [Hlo' Hhi'].
  assert (0 < d).
  { destruct (Z.ltb_spec 0 d); [assumption|].
    exfalso. destruct (Z.eq_dec d 0) as [->|].
    - simpl in Hhi. lia.
    - rewrite Z.pow_neg_r in Hhi by lia. lia. }
  destruct (Z.lt_trichotomy (Zpos (digits2_pos p)) d) as [Hlt|[Heq|Hgt]]; [|assumption|].
  - exfalso.
    assert (2 ^ Zpos (digits2_pos p) <= 2 ^ (d - 1)) by (apply Z.pow_le_mono_r; lia).
    lia.
  - exfalso.
    assert (2 ^ d <= 2 ^ (Zpos (digits2_pos p) - 1)) by (apply Z.pow_le_mono_r; lia).
    lia.
Qed.

Lemma digits2_shift (p s : positive) (k : Z) :
  0 <= k -> Zpos s = Zpos p * 2 ^ k ->
  Zpos (digits2_pos s) = Zpos (digits2_pos p) + k.
Proof.
  intros Hk Hs.
  apply digits2_unique.
  pose proof (digits2_bounds p) as [Hlo Hhi].
  rewrite Hs.
  replace (Zpos (digits2_pos p) + k - 1) with ((Zpos (digits2_pos p) - 1) + k) by lia.
  rewrite !Z.pow_add_r by lia.
  assert (0 < 2 ^ k) by (apply Z.pow_pos_nonneg; lia).
  nia.
Qed.

Lemma iter_pos_iter {A} (f : A -> A) (n : positive) (x : A) :
  SpecFloat.iter_pos f n x = Pos.iter f x n.
Proof.
  revert x. induction n as [n IH|n IH|]; intro x; cbn [SpecFloat.iter_pos Pos.iter].
  - now rewrite !IH, !Pos.iter_swap.
  - now rewrite !IH.
  - reflexivity.
Qed.

Lemma iter_pos_shr_1 (n t : positive) :
  SpecFloat.iter_pos shr_1 n (Build_shr_record (Zpos (Pos.iter xO t n)) false false)
  = Build_shr_record (Zpos t) false false.
Proof.
  rewrite iter_pos_iter.
  induction n as [|n IH] using Pos.peano_ind.
  - reflexivity.
  - rewrite Pos.iter_succ_r, Pos.iter_succ. exact IH.
Qed.

Lemma fexp_eq (e : Z) : fexp 53 1024 e = Z.max (e - 53) (-1074).
Proof. reflexivity. Qed.

(** A 53-bit mantissa at an exponent in range is already rounded. *)
Lemma shr_fexp_canonical (m : positive) (e : Z) :
  Zpos (digits2_pos m) = 53 -> -1074 <= e ->
  shr_fexp 53 1024 (Zpos m) e loc_Exact = (Build_shr_record (Zpos m) false false, e).
Proof.
  intros Hd He.
  unfold shr_fexp. cbn [Zdigits2 shr_record_of_loc].
  rewrite Hd, fexp_eq.
  replace (Z.max (53 + e - 53) (-1074) - e) with 0 by lia.
  reflexivity.
Qed.

Lemma binary_round_aux_canonical (sx : bool) (m : positive) (e : Z) :
  Zpos (digits2_pos m) = 53 -> -1074 <= e <= 971 ->
  binary_round_aux 53 1024 sx (Zpos m) e loc_Exact = S754_finite sx m e.
Proof.
  intros Hd He.
  unfold binary_round_aux.
  rewrite (shr_fexp_canonical m e Hd) by lia.
  cbn [shr_m loc_of_shr_record round_nearest_even].
  rewrite (shr_fexp_canonical m e Hd) by lia.
  cbn [shr_m].
  replace (e <=? 1024 - 53) with true by (symmetry; apply Z.leb_le; lia).
  reflexivity.
Qed.

Lemma digits2_le_53 (p : positive) :
  Zpos p < 2 ^ 53 -> 1 <= Zpos (digits2_pos p) <= 53.
Proof.
  intro Hp. pose proof (digits2_bounds p) as [Hlo Hhi].
  split; [lia|].
  destruct (Z.leb_spec (Zpos (digits2_pos p)) 53); [assumption|exfalso].
  assert (2 ^ 53 <= 2 ^ (Zpos (digits2_pos p) - 1)) by (apply Z.pow_le_mono_r; lia).
  lia.
Qed.

Lemma binary_round_canon (sx : bool) (p s : positive) (k : Z) :
  Zpos p < 2 ^ 53 -> 0 <= k -> Zpos s = Zpos p * 2 ^ k ->
  binary_round 53 1024 sx s (- k) = canon sx p.
Proof.
  intros Hp Hk Hs.
  pose proof (digits2_le_53 p Hp) as Hd.
  pose proof (digits2_shift p s k Hk Hs) as Hds.
  set (d := Zpos (digits2_pos p)) in *.
  assert (Hpow : 0 < 2 ^ (53 - d)) by (apply Z.pow_pos_nonneg; lia).
  assert (Hcanon : Zpos (digits2_pos (Z.to_pos (Zpos p * 2 ^ (53 - d)))) = 53).
  { replace 53 with (d + (53 - d)) at 2 by lia.
    apply digits2_shift; [lia|]. rewrite Z2Pos.id; [reflexivity|lia]. }
  unfold binary_round, canon. fold d.
  rewrite Hds, fexp_eq.
  replace (Z.max (d + k + - k - 53) (-1074)) with (d - 53) by lia.
  unfold shl_align.
  destruct (d - 53 - - k) as [|q|q] eqn:Hdiff.
  - (* already aligned *)
    assert (k = 53 - d) by lia. subst k.
    replace (Z.to_pos (Zpos p * 2 ^ (53 - d))) with s
      by (apply Pos2Z.inj; rewrite Z2Pos.id; lia).
    replace (- (53 - d)) with (d - 53) by lia.
    apply binary_round_aux_canonical; [|lia].
    rewrite Hds. lia.
  - (* more than 53 bits: the rounding shifts right, exactly *)
    set (t := Z.to_pos (Zpos p * 2 ^ (53 - d))) in *.
    assert (Ht : Zpos t = Zpos p * 2 ^ (53 - d)) by (unfold t; rewrite Z2Pos.id; lia).
    assert (Hst : s = Pos.iter xO t q).
    { apply Pos2Z.inj. rewrite Zpos_iter_xO, Ht, Hs, <- Z.mul_assoc, <- Z.pow_add_r by lia.
      do 2 f_equal. lia. }
    unfold binary_round_aux, shr_fexp. cbn [Zdigits2 shr_record_of_loc].
    rewrite Hds, fexp_eq.
    replace (Z.max (d + k + - k - 53) (-1074) - - k) with (Zpos q) by lia.
    cbn [shr]. rewrite Hst, iter_pos_shr_1.
    cbn [shr_m loc_of_shr_record round_nearest_even Zdigits2 shr_record_of_loc].
    rewrite Hcanon, fexp_eq.
    replace (Z.max (53 + (- k + Zpos q) - 53) (-1074) - (- k + Zpos q)) with 0 by lia.
    cbn [shr shr_m].
    replace (- k + Zpos q) with (d - 53) by lia.
    replace (d - 53 <=? 1024 - 53) with true by (symmetry; apply Z.leb_le; lia).
    reflexivity.
  - (* fewer than 53 bits: aligned by a left shift *)
    replace (Z.to_pos (Zpos p * 2 ^ (53 - d))) with (Pos.iter xO s q).
    + apply binary_round_aux_canonical; [|lia].
      rewrite (digits2_shift s _ (Zpos q)), Hds by (lia || apply Zpos_iter_xO).
      lia.
    + apply Pos2Z.inj. rewrite Zpos_iter_xO, Z2Pos.id, Hs, <- Z.mul_assoc, <- Z.pow_add_r by lia.
      do 2 f_equal. lia.
Qed.

Lemma binary_round_whole (sx : bool) (p : positive) :
  Zpos p < 2 ^ 53 -> binary_round 53 1024 sx p 0 = canon sx p.
Proof.
  intro Hp. apply (binary_round_canon sx p p 0); [assumption|lia|].
  rewrite Z.pow_0_r. lia.
Qed.

(** Any representation [s * 2^-k] of the whole number [a] normalises to
    the float of [a]. *)
Lemma binary_normalize_whole (a s k : Z) :
  Z.abs a < 2 ^ 53 -> 0 <= k -> s = a * 2 ^ k ->
  binary_normalize 53 1024 s (- k) false = JSNumber.ofZ a.
Proof.
  intros Ha Hk Hs.
  assert (Hpow : 0 < 2 ^ k) by (apply Z.pow_pos_nonneg; lia).
  destruct a as [|p|p].
  - subst s. reflexivity.
  - destruct s as [|s|s]; try lia. unfold JSNumber.ofZ. cbn [binary_normalize].
    rewrite (binary_round_canon false p s k), binary_round_whole; trivial; lia.
  - destruct s as [|s|s]; try lia. unfold JSNumber.ofZ. cbn [binary_normalize].
    rewrite (binary_round_canon true p s k), binary_round_whole; trivial; lia.
Qed.

Lemma ofZ_finite (a : Z) :
  a <> 0 -> Z.abs a < 2 ^ 53 ->
  exists m e,
    JSNumber.ofZ a = S754_finite (a <? 0) m e
    /\ e <= 0
    /\ Zpos m = Z.abs a * 2 ^ (- e)
    /\ 2 ^ 52 <= Zpos m < 2 ^ 53.
Proof.
  intros Hnz Ha.
  assert (Hcanon : forall sx p, Zpos p < 2 ^ 53 ->
            exists m e, canon sx p = S754_finite sx m e /\ e <= 0
                        /\ Zpos m = Zpos p * 2 ^ (- e) /\ 2 ^ 52 <= Zpos m < 2 ^ 53).
  { intros sx p Hp.
    pose proof (digits2_bounds p) as [Hlo Hhi].
    pose proof (digits2_le_53 p Hp) as Hd.
    set (d := Zpos (digits2_pos p)) in *.
    assert (Hpow : 0 < 2 ^ (53 - d)) by (apply Z.pow_pos_nonneg; lia).
    exists (Z.to_pos (Zpos p * 2 ^ (53 - d))), (d - 53).
    split; [reflexivity|]. split; [lia|].
    replace (- (d - 53)) with (53 - d) by lia.
    rewrite Z2Pos.id by lia.
    split; [reflexivity|].
    assert (E52 : 2 ^ 52 = 2 ^ (d - 1) * 2 ^ (53 - d))
      by (rewrite <- Z.pow_add_r by lia; f_equal; lia).
    assert (E53 : 2 ^ 53 = 2 ^ d * 2 ^ (53 - d))
      by (rewrite <- Z.pow_add_r by lia; f_equal; lia).
    rewrite E52, E53. split.
    - apply Z.mul_le_mono_nonneg_r; lia.
    - apply Z.mul_lt_mono_pos_r; lia. }
  destruct a as [|p|p]; [congruence| |]; unfold JSNumber.ofZ; cbn [binary_normalize Z.abs Z.ltb Z.compare].
  - rewrite binary_round_whole by exact Ha. apply Hcanon. exact Ha.
  - rewrite binary_round_whole by exact Ha. apply Hcanon. exact Ha.
Qed.

Lemma ofZ_compare (a b : Z) :
  Z.abs a < 2 ^ 53 -> Z.abs b < 2 ^ 53 ->
  SFcompare (JSNumber.ofZ a) (JSNumber.ofZ b) = Some (a ?= b).
Proof.
  intros Ha Hb.
  destruct (Z.eq_dec a 0) as [->|Hna], (Z.eq_dec b 0) as [->|Hnb].
  - reflexivity.
  - destruct (ofZ_finite b Hnb Hb) as (m & e & -> & _).
    destruct b; try congruence; reflexivity.
  - destruct (ofZ_finite a Hna Ha) as (m & e & -> & _).
    destruct a; try congruence; reflexivity.
  - destruct (ofZ_finite a Hna Ha) as (ma & ea & -> & Hea & Hma & Hba).
    destruct (ofZ_finite b Hnb Hb) as (mb & eb & -> & Heb & Hmb & Hbb).
    assert (Hmag : (match ea ?= eb with
                    | Lt => Lt | Gt => Gt | Eq => Pos.compare_cont Eq ma mb
                    end) = (Z.abs a ?= Z.abs b)).
    { assert (Hpow : forall x y, 0 <= x -> x < y -> 2 * 2 ^ x <= 2 ^ y).
      { intros x y Hx Hxy. rewrite <- Z.pow_succ_r by lia. apply Z.pow_le_mono_r; lia. }
      assert (Hpos : forall x, 0 <= x -> 0 < 2 ^ x) by (intros; apply Z.pow_pos_nonneg; lia).
      assert (Hua : 0 < Z.abs a) by lia.
      assert (Hub : 0 < Z.abs b) by lia.
      revert Hma Hmb Hba Hbb Hua Hub. generalize (Z.abs a), (Z.abs b).
      intros u v Hma Hmb Hba Hbb Hu Hv.
      destruct (Z.compare_spec ea eb) as [E|L|G].
      - subst eb.
        change (Pos.compare_cont Eq ma mb) with (Zpos ma ?= Zpos mb).
        rewrite Hma, Hmb.
        specialize (Hpos (- ea) ltac:(lia)).
        destruct (Z.compare_spec u v) as [E|L|G].
        + rewrite E. apply Z.compare_refl.
        + apply Z.compare_lt_iff. nia.
        + apply Z.compare_gt_iff. nia.
      - symmetry. apply Z.compare_lt_iff.
        specialize (Hpow (- eb) (- ea) ltac:(lia) ltac:(lia)).
        specialize (Hpos (- eb) ltac:(lia)).
        nia.
      - symmetry. apply Z.compare_gt_iff.
        specialize (Hpow (- ea) (- eb) ltac:(lia) ltac:(lia)).
        specialize (Hpos (- ea) ltac:(lia)).
        nia. }
    cbn [SFcompare]. f_equal.
    destruct a as [|p|p], b as [|q|q]; try congruence;
      cbn [Z.ltb Z.compare Z.abs] in *; try reflexivity.
    + exact Hmag.
    + rewrite <- Hmag. destruct (ea ?= eb); reflexivity.
Qed.

Lemma shl_align_fst (m : positive) (e ez : Z) :
  ez <= e -> Zpos (fst (shl_align m e ez)) = Zpos m * 2 ^ (e - ez).
Proof.
  intro He. unfold shl_align.
  destruct (ez - e) as [|d|d] eqn:Hd; cbn [fst]; try lia.
  - replace (e - ez) with 0 by lia. rewrite Z.pow_0_r. lia.
  - rewrite Zpos_iter_xO. do 2 f_equal. lia.
Qed.

Lemma ofZ_add (a b : Z) :
  Z.abs a < 2 ^ 53 -> Z.abs b < 2 ^ 53 -> Z.abs (a + b) < 2 ^ 53 ->
  JSNumber.add (JSNumber.ofZ a) (JSNumber.ofZ b) = JSNumber.ofZ (a + b).
Proof.
  intros Ha Hb Hsum.
  destruct (Z.eq_dec a 0) as [->|Hna], (Z.eq_dec b 0) as [->|Hnb].
  - reflexivity.
  - destruct (ofZ_finite b Hnb Hb) as (m & e & E & _).
    rewrite Z.add_0_l, E. reflexivity.
  - destruct (ofZ_finite a Hna Ha) as (m & e & E & _).
    rewrite Z.add_0_r, E. reflexivity.
  - destruct (ofZ_finite a Hna Ha) as (ma & ea & -> & Hea & Hma & Hba).
    destruct (ofZ_finite b Hnb Hb) as (mb & eb & -> & Heb & Hmb & Hbb).
    unfold JSNumber.add. cbn [SFadd].
    set (ez := Z.min ea eb).
    rewrite !shl_align_fst by (unfold ez; lia).
    replace ez with (- (- ez)) at 3 by lia.
    apply binary_normalize_whole; [assumption|unfold ez; lia|].
    assert (Hpa : Zpos ma * 2 ^ (ea - ez) = Z.abs a * 2 ^ (- ez)).
    { rewrite Hma, <- Z.mul_assoc, <- Z.pow_add_r by (unfold ez; lia).
      do 2 f_equal. lia. }
    assert (Hpb : Zpos mb * 2 ^ (eb - ez) = Z.abs b * 2 ^ (- ez)).
    { rewrite Hmb, <- Z.mul_assoc, <- Z.pow_add_r by (unfold ez; lia).
      do 2 f_equal. lia. }
    rewrite Hpa, Hpb.
    generalize (2 ^ (- ez)). intro x.
    unfold cond_Zopp.
    destruct (Z.ltb_spec a 0), (Z.ltb_spec b 0); lia.
Qed.

Lemma max_ofZ (a b : Z) :
  Z.abs a < 2 ^ 53 -> Z.abs b < 2 ^ 53 ->
  JSNumber.max (JSNumber.ofZ a) (JSNumber.ofZ b) = JSNumber.ofZ (Z.max a b).
Proof.
  intros Ha Hb.
  assert (Hlt : SFltb (JSNumber.ofZ a) (JSNumber.ofZ b) = (a <? b)).
  { unfold SFltb. rewrite (ofZ_compare a b Ha Hb). unfold Z.ltb.
    destruct (a ?= b); reflexivity. }
  assert (Hmax : (if a <? b then JSNumber.ofZ b else JSNumber.ofZ a) = JSNumber.ofZ (Z.max a b)).
  { destruct (Z.ltb_spec a b); [rewrite Z.max_r|rewrite Z.max_l]; trivial; lia. }
  rewrite <- Hmax, <- Hlt.
  destruct (Z.eq_dec a 0) as [->|Hna], (Z.eq_dec b 0) as [->|Hnb].
  - reflexivity.
  - destruct (ofZ_finite b Hnb Hb) as (m & e & -> & _). reflexivity.
  - destruct (ofZ_finite a Hna Ha) as (m & e & -> & _). reflexivity.
  - destruct (ofZ_finite a Hna Ha) as (ma & ea & -> & _).
    destruct (ofZ_finite b Hnb Hb) as (mb & eb & -> & _). reflexivity.
Qed.

Lemma ge_ofZ (a b : Z) :
  Z.abs a < 2 ^ 53 -> Z.abs b < 2 ^ 53 ->
  JSNumber.ge (JSNumber.ofZ a) (JSNumber.ofZ b) = (b <=? a).
Proof.
  intros Ha Hb. unfold JSNumber.ge, SFleb.
  rewrite (ofZ_compare b a Hb Ha).
  destruct (Z.compare_spec b a), (Z.leb_spec b a); lia || reflexivity.
Qed.

Lemma lt_ofZ (a b : Z) :
  Z.abs a < 2 ^ 53 -> Z.abs b < 2 ^ 53 ->
  JSNumber.lt (JSNumber.ofZ a) (JSNumber.ofZ b) = (a <? b).
Proof.
  intros Ha Hb. unfold JSNumber.lt, SFltb.
  rewrite (ofZ_compare a b Ha Hb).
  destruct (Z.compare_spec a b), (Z.ltb_spec a b); lia || reflexivity.
Qed.

(** A mantissa of 53 bits or more is rounded where it stands. *)
Lemma binary_round_unaligned (sx : bool) (s : positive) (e : Z) :
  53 <= Zpos (digits2_pos s) ->
  binary_round 53 1024 sx s e = binary_round_aux 53 1024 sx (Zpos s) e loc_Exact.
Proof.
  intro Hd. unfold binary_round, shl_align. rewrite fexp_eq.
  destruct (Z.max (Zpos (digits2_pos s) + e - 53) (-1074) - e) eqn:E; try reflexivity.
  lia.
Qed.

Lemma ofZ_nonneg_finite (a : Z) :
  0 < a < 2 ^ 53 ->
  exists m e,
    JSNumber.ofZ a = S754_finite false m e
    /\ e <= 0
    /\ Zpos m = a * 2 ^ (- e)
    /\ 2 ^ 52 <= Zpos m < 2 ^ 53.
Proof.
  intro Ha.
  destruct (ofZ_finite a) as (m & e & E & He & Hm & Hb); [lia|lia|].
  exists m, e.
  replace (a <? 0) with false in E by (symmetry; apply Z.ltb_ge; lia).
  rewrite Z.abs_eq in Hm by lia. auto.
Qed.

(** The product of two whole numbers is exact while it stays below
    [2^53]. *)
Lemma ofZ_mul (a b : Z) :
  0 <= a < 2 ^ 53 -> 0 <= b < 2 ^ 53 -> a * b < 2 ^ 53 ->
  JSNumber.mul (JSNumber.ofZ a) (JSNumber.ofZ b) = JSNumber.ofZ (a * b).
Proof.
  intros Ha Hb Hab.
  destruct (Z.eq_dec a 0) as [->|Hna].
  { destruct (Z.eq_dec b 0) as [->|Hnb]; [reflexivity|].
    destruct (ofZ_nonneg_finite b) as (m & e & -> & _); [lia|reflexivity]. }
  destruct (Z.eq_dec b 0) as [->|Hnb].
  { destruct (ofZ_nonneg_finite a) as (m & e & -> & _); [lia|].
    rewrite Z.mul_0_r. reflexivity. }
  destruct (ofZ_nonneg_finite a) as (ma & ea & -> & Hea & Hma & Hba); [lia|].
  destruct (ofZ_nonneg_finite b) as (mb & eb & -> & Heb & Hmb & Hbb); [lia|].
  unfold JSNumber.mul. cbn [SFmul xorb].
  destruct (a * b) as [|p|p] eqn:Hp; try nia.
  unfold JSNumber.ofZ. cbn [binary_normalize].
  rewrite binary_round_whole by exact Hab.
  rewrite <- (binary_round_canon false p (ma * mb) (- (ea + eb))).
  - rewrite Z.opp_involutive. symmetry. apply binary_round_unaligned.
    pose proof (digits2_bounds (ma * mb)) as [_ Hhi].
    destruct (Z.leb_spec 53 (Zpos (digits2_pos (ma * mb)))); [assumption|exfalso].
    assert (2 ^ Zpos (digits2_pos (ma * mb)) <= 2 ^ 52) by (apply Z.pow_le_mono_r; lia).
    rewrite Pos2Z.inj_mul in Hhi.
    change (2 ^ 52) with 4503599627370496 in *. nia.
  - exact Hab.
  - lia.
  - rewrite Pos2Z.inj_mul, Hma, Hmb, <- Hp.
    replace (- (ea + eb)) with (- ea + - eb) by lia.
    rewrite Z.pow_add_r by lia. ring.
Qed.

Lemma totalOf_nonneg (qs : list Z) : Forall (fun q => 0 <= q) qs -> 0 <= totalOf qs.
Proof.
  induction 1 as [|q qs Hq _ IH]; simpl; lia.
Qed.

(** ** Pricing *)

Lemma fold_left_sigma {A} (f : A -> JSNumber.t) (l : list A) (from : JSNumber.t) :
  fold_left (fun sum x => JSNumber.add sum (f x)) l from = sigma (map f l) from.
Proof.
  revert from; induction l as [|x l IH]; intro from; simpl.
  - reflexivity.
  - apply IH.
Qed.

Lemma sumQuantity_sigma (cart : Cart) :
  sumQuantity cart = sigma (map CartItem.quantity cart) (JSNumber.ofZ 0).
Proof. apply fold_left_sigma. Qed.

(** The running subtotal of the checkout loop does not depend on the lines
    collected so far. *)
Lemma orderLines_from (cart : Cart) (html : list OrderLine) (from : JSNumber.t) :
  snd (fold_left
         (fun (acc : list OrderLine * JSNumber.t) item =>
            let (html, subtotal) := acc in
            let itemTotal := JSNumber.mul (CartItem.price item) (CartItem.quantity item) in
            let subtotal := JSNumber.add subtotal itemTotal in
            ((html ++ [mkOrderLine (CartItem.quantity item) (CartItem.name item)
                                   (JSNumber.toFixed 2 itemTotal)]),
             subtotal))
         cart (html, from))
  = sigma (map lineTotal cart) from.
Proof.
  revert html from; induction cart as [|item cart IH]; intros html from; simpl.
  - reflexivity.
  - apply IH.
Qed.

Lemma orderLines_subtotal (cart : Cart) :
  snd (orderLines cart) = sigma (map lineTotal cart) (JSNumber.ofZ 0).
Proof. apply orderLines_from. Qed.

(** The lines collected by the checkout loop, in cart order. *)
Lemma orderLines_lines (cart : Cart) (html : list OrderLine) (from : JSNumber.t) :
  fst (fold_left
         (fun (acc : list OrderLine * JSNumber.t) item =>
            let (html, subtotal) := acc in
            let itemTotal := JSNumber.mul (CartItem.price item) (CartItem.quantity item) in
            let subtotal := JSNumber.add subtotal itemTotal in
            ((html ++ [mkOrderLine (CartItem.quantity item) (CartItem.name item)
                                   (JSNumber.toFixed 2 itemTotal)]),
             subtotal))
         cart (html, from))
  = html ++ map orderLine cart.
Proof.
  revert html from; induction cart as [|item cart IH]; intros html from; simpl.
  - now rewrite app_nil_r.
  - rewrite IH, <- app_assoc. reflexivity.
Qed.

Lemma tierRate_chain (t : JSNumber.t) :
  tierRate t =
    if JSNumber.ge t (JSNumber.ofZ 500) then JSNumber.decimal 2 1
    else if JSNumber.ge t (JSNumber.ofZ 300) then JSNumber.decimal 15 2
    else if JSNumber.ge t (JSNumber.ofZ 200) then JSNumber.decimal 1 1
    else if JSNumber.ge t (JSNumber.ofZ 100) then JSNumber.decimal 5 2
    else JSNumber.ofZ 0.
Proof.
  unfold tierRate, discountTiers, qualifies.
  cbn [filter fst].
  destruct (JSNumber.ge t (JSNumber.ofZ 500));
    destruct (JSNumber.ge t (JSNumber.ofZ 300));
    destruct (JSNumber.ge t (JSNumber.ofZ 200));
    destruct (JSNumber.ge t (JSNumber.ofZ 100));
    vm_compute; reflexivity.
Qed.

Lemma sigma_whole (qs : list Z) (acc : Z) :
  0 <= acc -> Forall (fun q => 0 <= q) qs -> acc + totalOf qs < 2 ^ 53 ->
  sigma (map JSNumber.ofZ qs) (JSNumber.ofZ acc) = JSNumber.ofZ (acc + totalOf qs).
Proof.
  intros Hacc Hqs. revert acc Hacc.
  induction Hqs as [|q qs Hq Hqs IH]; intros acc Hacc Hsum;
    cbn [map sigma totalOf fold_right] in *.
  - now rewrite Z.add_0_r.
  - fold (totalOf qs) in *.
    pose proof (totalOf_nonneg qs Hqs).
    rewrite ofZ_add by lia.
    rewrite IH by lia.
    f_equal. lia.
Qed.

Lemma sumQuantity_whole (cart : Cart) (qs : list Z) :
  wholeQuantities cart qs -> sumQuantity cart = JSNumber.ofZ (totalOf qs).
Proof.
  intros (Hqs & Hnonneg & Hsum).
  rewrite sumQuantity_sigma, Hqs.
  apply (sigma_whole qs 0); auto. lia.
Qed.

Lemma tierRate_whole (total : Z) :
  0 <= total < 2 ^ 53 -> tierRate (JSNumber.ofZ total) = stepRate total.
Proof.
  intro Htotal.
  rewrite tierRate_chain, !ge_ofZ by (change (2 ^ 53) with 9007199254740992 in *; lia).
  unfold stepRate.
  destruct (500 <=? total); [vm_compute; reflexivity|].
  destruct (300 <=? total); [vm_compute; reflexivity|].
  destruct (200 <=? total); [vm_compute; reflexivity|].
  destruct (100 <=? total); vm_compute; reflexivity.
Qed.

(** C1. In both rendering paths the discount rate of a cart is the rate of
    the highest tier of the table whose lower bound the total quantity
    (the sum of the item quantities) reaches, and 0 when it reaches none.
    When the quantities are whole numbers the total is their sum and the
    rate is 0.20 from 500, else 0.15 from 300, else 0.10 from 200, else
    0.05 from 100, else 0.  One-line carts of 99, 100, 199, 200, 299, 300,
    499 and 500 units get 0, 0.05, 0.05, 0.10, 0.10, 0.15, 0.15 and
    0.20. *)
Theorem discountRate_step :
  (forall cart : Cart,
      totalQuantity (renderCart_pricing cart)
        = sigma (map CartItem.quantity cart) (JSNumber.ofZ 0)
      /\ totalQuantity (renderCheckout_pricing cart)
        = sigma (map CartItem.quantity cart) (JSNumber.ofZ 0)
      /\ discountRate (renderCart_pricing cart)
        = tierRate (totalQuantity (renderCart_pricing cart))
      /\ discountRate (renderCheckout_pricing cart)
        = tierRate (totalQuantity (renderCheckout_pricing cart)))
  /\ (forall (cart : Cart) (qs : list Z),
        wholeQuantities cart qs ->
        totalQuantity (renderCart_pricing cart) = JSNumber.ofZ (totalOf qs)
        /\ totalQuantity (renderCheckout_pricing cart) = JSNumber.ofZ (totalOf qs)
        /\ discountRate (renderCart_pricing cart) = stepRate (totalOf qs)
        /\ discountRate (renderCheckout_pricing cart) = stepRate (totalOf qs))
  /\ map stepRate [99; 100; 199; 200; 299; 300; 499; 500]
     = [JSNumber.decimal 0 2; JSNumber.decimal 5 2; JSNumber.decimal 5 2;
        JSNumber.decimal 10 2; JSNumber.decimal 10 2; JSNumber.decimal 15 2;
        JSNumber.decimal 15 2; JSNumber.decimal 20 2]
  /\ (forall id name price,
        map (fun q => discountRate (renderCart_pricing (singleItem id name price q)))
            [99; 100; 199; 200; 299; 300; 499; 500]
        = [JSNumber.decimal 0 2; JSNumber.decimal 5 2; JSNumber.decimal 5 2;
           JSNumber.decimal 10 2; JSNumber.decimal 10 2; JSNumber.decimal 15 2;
           JSNumber.decimal 15 2; JSNumber.decimal 20 2])
  /\ (forall id name price,
        map (fun q => discountRate (renderCheckout_pricing (singleItem id name price q)))
            [99; 100; 199; 200; 299; 300; 499; 500]
        = [JSNumber.decimal 0 2; JSNumber.decimal 5 2; JSNumber.decimal 5 2;
           JSNumber.decimal 10 2; JSNumber.decimal 10 2; JSNumber.decimal 15 2;
           JSNumber.decimal 15 2; JSNumber.decimal 20 2]).
Proof.
  assert (General : forall cart : Cart,
      totalQuantity (renderCart_pricing cart)
        = sigma (map CartItem.quantity cart) (JSNumber.ofZ 0)
      /\ totalQuantity (renderCheckout_pricing cart)
        = sigma (map CartItem.quantity cart) (JSNumber.ofZ 0)
      /\ discountRate (renderCart_pricing cart)
        = tierRate (totalQuantity (renderCart_pricing cart))
      /\ discountRate (renderCheckout_pricing cart)
        = tierRate (totalQuantity (renderCheckout_pricing cart))).
  { intro cart.
    unfold renderCart_pricing, renderCheckout_pricing; cbn [totalQuantity discountRate].
    rewrite tierRate_chain.
    repeat split; try reflexivity; apply sumQuantity_sigma. }
  split; [exact General|]. split; [|split; [|split]].
  - intros cart qs Hwhole.
    destruct (General cart) as (_ & _ & Hcart & Hcheckout).
    rewrite Hcart, Hcheckout.
    change (totalQuantity (renderCart_pricing cart)) with (sumQuantity cart).
    change (totalQuantity (renderCheckout_pricing cart)) with (sumQuantity cart).
    rewrite (sumQuantity_whole cart qs Hwhole).
    destruct Hwhole as (_ & Hnonneg & Hsum).
    pose proof (totalOf_nonneg qs Hnonneg).
    rewrite tierRate_whole by lia.
    repeat split.
  - vm_compute. reflexivity.
  - intros id name price. vm_compute. reflexivity.
  - intros id name price. vm_compute. reflexivity.
Qed.

Lemma wholeLines_quantities (cart : Cart) (lines : list (Z * Z)) :
  wholeLines cart lines -> wholeQuantities cart (map snd lines).
Proof.
  intros (_ & Hq & Hb & _ & Hsum).
  split; [|split].
  - now rewrite Hq, map_map.
  - apply Forall_map. revert Hb. apply Forall_impl. intros l [_ [H _]]. exact H.
  - exact Hsum.
Qed.

Lemma lineTotal_whole (lines : list (Z * Z)) (cart : Cart) :
  wholeLines cart lines ->
  map lineTotal cart = map JSNumber.ofZ (map (fun l => fst l * snd l) lines)
  /\ Forall (fun t => 0 <= t) (map (fun l => fst l * snd l) lines).
Proof.
  intros (Hp & Hq & Hb & Hsum & _).
  revert cart Hp Hq Hsum.
  induction Hb as [|[price quantity] lines [Hprice Hquantity] Hb IH];
    intros [|item cart] Hp Hq Hsum; try discriminate.
  - split; [reflexivity|constructor].
  - cbn [map fst snd totalOf fold_right] in *.
    fold (totalOf (map (fun l => fst l * snd l) lines)) in Hsum.
    injection Hp as Hp0 Hp. injection Hq as Hq0 Hq.
    assert (Hline : 0 <= price * quantity) by nia.
    assert (Hrest : totalOf (map (fun l => fst l * snd l) lines) < 2 ^ 53
                    -> 0 <= totalOf (map (fun l => fst l * snd l) lines)).
    { intro Hlt. apply totalOf_nonneg. now apply (IH cart). }
    destruct (Z.ltb_spec (totalOf (map (fun l => fst l * snd l) lines)) (2 ^ 53))
      as [Hlt|Hge]; [|lia].
    specialize (Hrest Hlt).
    destruct (IH cart Hp Hq Hlt) as [Htotals Hnonneg].
    split.
    + unfold lineTotal at 1. rewrite Hp0, Hq0, ofZ_mul by lia.
      now rewrite Htotals.
    + constructor; assumption.
Qed.

Lemma subtotal_whole (cart : Cart) (lines : list (Z * Z)) :
  wholeLines cart lines ->
  sigma (map lineTotal cart) (JSNumber.ofZ 0)
  = JSNumber.ofZ (totalOf (map (fun l => fst l * snd l) lines))
  /\ 0 <= totalOf (map (fun l => fst l * snd l) lines) < 2 ^ 53.
Proof.
  intro Hwhole.
  destruct (lineTotal_whole lines cart Hwhole) as [Htotals Hnonneg].
  destruct Hwhole as (_ & _ & _ & Hsum & _).
  pose proof (totalOf_nonneg _ Hnonneg).
  split; [|lia].
  rewrite Htotals. apply (sigma_whole _ 0); auto. lia.
Qed.

(** A whole amount at rate 0: nothing is taken off. *)
Lemma no_discount_whole (total : Z) :
  0 <= total < 2 ^ 53 ->
  JSNumber.mul (JSNumber.ofZ total) (JSNumber.ofZ 0) = JSNumber.ofZ 0
  /\ JSNumber.sub (JSNumber.ofZ total) (JSNumber.ofZ 0) = JSNumber.ofZ total.
Proof.
  intro Htotal.
  destruct (Z.eq_dec total 0) as [->|Hnz]; [split; reflexivity|].
  destruct (ofZ_nonneg_finite total) as (m & e & -> & _); [lia|].
  split; reflexivity.
Qed.

(** A whole number below [2^53] is the exact value of its float. *)
Lemma exactValue_ofZ (a : Z) :
  0 <= a < 2 ^ 53 -> (exactValue (JSNumber.ofZ a) == inject_Z a)%Q.
Proof.
  intro Ha.
  destruct (Z.eq_dec a 0) as [->|Hnz]; [reflexivity|].
  destruct (ofZ_nonneg_finite a) as (m & e & -> & He & Hm & _); [lia|].
  unfold exactValue.
  assert (Hpw : (Qpower (2 # 1) e == / inject_Z (2 ^ (- e)))%Q).
  { replace e with (- (- e)) at 1 by lia.
    rewrite Qpower_opp. change (2 # 1)%Q with (inject_Z 2).
    rewrite <- Zpower_Qpower by lia. reflexivity. }
  rewrite Hpw.
  change (Z.pos m # 1)%Q with (inject_Z (Z.pos m)).
  rewrite Hm, inject_Z_mult.
  assert (Hpow : ~ (inject_Z (2 ^ (- e)) == 0)%Q).
  { assert (0 < 2 ^ (- e)) by (apply Z.pow_pos_nonneg; lia).
    unfold Qeq, inject_Z; cbn. lia. }
  field. exact Hpow.
Qed.

Lemma exactSum_whole (lines : list (Z * Z)) (cart : Cart) :
  wholeLines cart lines ->
  (fold_right (fun item sum =>
                 exactValue (CartItem.price item)
                 * exactValue (CartItem.quantity item) + sum)
              0 cart
   == inject_Z (totalOf (map (fun l => (fst l * snd l)%Z) lines)))%Q.
Proof.
  intros (Hp & Hq & Hb & _).
  revert cart Hp Hq.
  induction Hb as [|[price quantity] lines [Hprice Hquantity] Hb IH];
    intros [|item cart] Hp Hq; try discriminate.
  - reflexivity.
  - cbn [map fst snd totalOf fold_right] in *.
    fold (totalOf (map (fun l => fst l * snd l) lines)).
    injection Hp as Hp0 Hp. injection Hq as Hq0 Hq.
    rewrite (IH cart Hp Hq), Hp0, Hq0, !exactValue_ofZ by lia.
    rewrite inject_Z_plus, inject_Z_mult. reflexivity.
Qed.

(** The claim C2 read on exact values fails.  For 109 swabs at 3.50 the
    subtotal is exactly 381.50 and the rate is the binary64 number nearest
    to 0.05; the discount amount is their product rounded to binary64,
    which is not the product, lies below 19.075 and is shown as 19.07.
    For three labels at 0.10 the subtotal is not the price times 3. *)
Lemma pricing_equations_counterexample :
  (exactValue (JSNumber.decimal 35 1) == 7 # 2)%Q
  /\ (exactValue (subtotal (renderCart_pricing swabs)) == 763 # 2)%Q
  /\ discountRate (renderCart_pricing swabs) = JSNumber.decimal 5 2
  /\ ~ (exactValue (discountAmount (renderCart_pricing swabs))
        == exactValue (subtotal (renderCart_pricing swabs))
           * exactValue (discountRate (renderCart_pricing swabs)))%Q
  /\ (exactValue (discountAmount (renderCart_pricing swabs)) < 19075 # 1000)%Q
  /\ breakdownOf (subtotal (renderCart_pricing swabs))
                 (discountRate (renderCart_pricing swabs))
                 (discountAmount (renderCart_pricing swabs))
     = Some (mkBreakdown (JSNumber.Digits "381.50") (JSNumber.Digits "5")
                         (JSNumber.Digits "19.07"))
  /\ ~ (exactValue (subtotal (renderCart_pricing labels))
        == exactValue (JSNumber.decimal 1 1) * exactValue (JSNumber.ofZ 3))%Q
  /\ ~ (forall cart : Cart, exactEquations cart (renderCart_pricing cart))
  /\ ~ (forall cart : Cart, exactEquations cart (renderCheckout_pricing cart)).
Proof.
  split; [vm_compute; reflexivity|].
  split; [vm_compute; reflexivity|].
  split; [vm_compute; reflexivity|].
  split; [intro H; vm_compute in H; discriminate|].
  split; [vm_compute; reflexivity|].
  split; [vm_compute; reflexivity|].
  split; [intro H; vm_compute in H; discriminate|].
  split.
  - intro H. destruct (H swabs) as (_ & Hamount & _).
    vm_compute in Hamount. discriminate.
  - intro H. destruct (H swabs) as (_ & Hamount & _).
    vm_compute in Hamount. discriminate.
Qed.

(** C2, as the script computes.  In both rendering paths the subtotal is
    the sum of the line totals, each line total the product of price and
    quantity, added in cart order from 0; the discount amount is the
    product of subtotal and rate; the grand total is their difference;
    every product, sum and difference is the binary64 one, rounded to
    nearest, and the total is printed by [toFixed(2)].  When prices and
    quantities are whole numbers the subtotal is exactly the sum of the
    products, and the discount amount and grand total are the rounded
    product and difference taken on it; below 100 units the discount is 0,
    the grand total is the subtotal, and the three equations hold
    exactly.  The cart of one item of price 10 and quantity 250 gives
    rate 0.10, subtotal 2500.00, discount 250.00 and grand total
    2250.00. *)
Theorem pricing_binary64 :
  (forall cart : Cart,
      let p := renderCart_pricing cart in
      let q := renderCheckout_pricing cart in
      subtotal p = sigma (map lineTotal cart) (JSNumber.ofZ 0)
      /\ discountAmount p = JSNumber.mul (subtotal p) (discountRate p)
      /\ grandTotal p = JSNumber.sub (subtotal p) (discountAmount p)
      /\ grandTotalText p = JSNumber.toFixed 2 (grandTotal p)
      /\ subtotal q = sigma (map lineTotal cart) (JSNumber.ofZ 0)
      /\ discountAmount q = JSNumber.mul (subtotal q) (discountRate q)
      /\ grandTotal q = JSNumber.sub (subtotal q) (discountAmount q)
      /\ grandTotalText q = JSNumber.toFixed 2 (grandTotal q))
  /\ (forall (cart : Cart) (lines : list (Z * Z)),
        wholeLines cart lines ->
        let total := totalOf (map (fun l => fst l * snd l) lines) in
        let units := totalOf (map snd lines) in
        let amount := JSNumber.mul (JSNumber.ofZ total) (stepRate units) in
        (renderCart_pricing cart
         = mkPricing (JSNumber.ofZ units) (stepRate units) (JSNumber.ofZ total)
                     amount (JSNumber.sub (JSNumber.ofZ total) amount)
                     (JSNumber.toFixed 2 (JSNumber.sub (JSNumber.ofZ total) amount))
         /\ renderCheckout_pricing cart = renderCart_pricing cart
         /\ (exactValue (subtotal (renderCart_pricing cart))
             == fold_right (fun item sum =>
                              exactValue (CartItem.price item)
                              * exactValue (CartItem.quantity item) + sum)
                           0 cart)%Q)
        /\ (units < 100 ->
            renderCart_pricing cart
            = mkPricing (JSNumber.ofZ units) (JSNumber.ofZ 0) (JSNumber.ofZ total)
                        (JSNumber.ofZ 0) (JSNumber.ofZ total)
                        (JSNumber.toFixed 2 (JSNumber.ofZ total))
            /\ exactEquations cart (renderCart_pricing cart)
            /\ exactEquations cart (renderCheckout_pricing cart)))
  /\ (forall name,
        let cart := singleItem "a" name 10 250 in
        renderCart_pricing cart
          = mkPricing (JSNumber.ofZ 250) (JSNumber.decimal 10 2)
                      (JSNumber.ofZ 2500) (JSNumber.ofZ 250)
                      (JSNumber.ofZ 2250) (JSNumber.Digits "2250.00")
        /\ renderCheckout_pricing cart = renderCart_pricing cart
        /\ breakdownOf (JSNumber.ofZ 2500) (JSNumber.decimal 10 2) (JSNumber.ofZ 250)
           = Some (mkBreakdown (JSNumber.Digits "2500.00") (JSNumber.Digits "10")
                               (JSNumber.Digits "250.00"))).
Proof.
  assert (Paths : forall cart : Cart,
             renderCheckout_pricing cart = renderCart_pricing cart).
  { intro cart. unfold renderCart_pricing, renderCheckout_pricing.
    rewrite orderLines_subtotal, (fold_left_sigma lineTotal). reflexivity. }
  assert (Subtotal : forall cart : Cart,
             subtotal (renderCart_pricing cart)
             = sigma (map lineTotal cart) (JSNumber.ofZ 0)).
  { intro cart. apply (fold_left_sigma lineTotal). }
  assert (Rate : forall cart qs, wholeQuantities cart qs ->
             totalQuantity (renderCart_pricing cart) = JSNumber.ofZ (totalOf qs)
             /\ discountRate (renderCart_pricing cart) = stepRate (totalOf qs)).
  { intros cart qs Hwhole.
    assert (Hrate : discountRate (renderCart_pricing cart) = tierRate (sumQuantity cart)).
    { unfold renderCart_pricing; cbn [discountRate]. now rewrite tierRate_chain. }
    rewrite Hrate.
    change (totalQuantity (renderCart_pricing cart)) with (sumQuantity cart).
    rewrite (sumQuantity_whole cart qs Hwhole).
    destruct Hwhole as (_ & Hnonneg & Hsum).
    pose proof (totalOf_nonneg qs Hnonneg).
    split; [reflexivity|]. apply tierRate_whole. lia. }
  assert (Heta : forall p, p = mkPricing (totalQuantity p) (discountRate p)
                                 (subtotal p) (discountAmount p)
                                 (grandTotal p) (grandTotalText p))
    by (intros []; reflexivity).
  split; [|split].
  - intros cart p q; subst p q.
    rewrite Paths. pose proof (Subtotal cart) as Hsub.
    repeat split; try exact Hsub; reflexivity.
  - intros cart lines Hwhole total units amount.
    destruct (subtotal_whole cart lines Hwhole) as [Hsub Hbound].
    fold total in Hsub, Hbound.
    destruct (Rate cart _ (wholeLines_quantities cart lines Hwhole)) as [Hunits Hrate].
    fold units in Hunits, Hrate.
    assert (Hsubtotal : subtotal (renderCart_pricing cart) = JSNumber.ofZ total)
      by (now rewrite Subtotal).
    assert (Hamount : discountAmount (renderCart_pricing cart) = amount).
    { change (discountAmount (renderCart_pricing cart))
        with (JSNumber.mul (subtotal (renderCart_pricing cart))
                           (discountRate (renderCart_pricing cart))).
      now rewrite Hsubtotal, Hrate. }
    assert (Htotal : grandTotal (renderCart_pricing cart)
                     = JSNumber.sub (JSNumber.ofZ total) amount).
    { change (grandTotal (renderCart_pricing cart))
        with (JSNumber.sub (subtotal (renderCart_pricing cart))
                           (discountAmount (renderCart_pricing cart))).
      now rewrite Hsubtotal, Hamount. }
    assert (Htext : grandTotalText (renderCart_pricing cart)
                    = JSNumber.toFixed 2 (JSNumber.sub (JSNumber.ofZ total) amount)).
    { change (grandTotalText (renderCart_pricing cart))
        with (JSNumber.toFixed 2 (grandTotal (renderCart_pricing cart))).
      now rewrite Htotal. }
    assert (Hrecord : renderCart_pricing cart
                      = mkPricing (JSNumber.ofZ units) (stepRate units)
                          (JSNumber.ofZ total) amount
                          (JSNumber.sub (JSNumber.ofZ total) amount)
                          (JSNumber.toFixed 2 (JSNumber.sub (JSNumber.ofZ total) amount))).
    { rewrite (Heta (renderCart_pricing cart)).
      now rewrite Hunits, Hrate, Hsubtotal, Hamount, Htotal, Htext. }
    assert (Hexact : (exactValue (subtotal (renderCart_pricing cart))
                      == fold_right (fun item sum =>
                                       exactValue (CartItem.price item)
                                       * exactValue (CartItem.quantity item) + sum)
                                    0 cart)%Q).
    { rewrite Hsubtotal, (exactSum_whole lines cart Hwhole).
      apply exactValue_ofZ. exact Hbound. }
    split; [split; [exact Hrecord|split; [apply Paths|exact Hexact]]|].
    intro Hlow.
    assert (Hzero : stepRate units = JSNumber.ofZ 0).
    { unfold stepRate.
      destruct (Z.leb_spec 500 units); [lia|].
      destruct (Z.leb_spec 300 units); [lia|].
      destruct (Z.leb_spec 200 units); [lia|].
      destruct (Z.leb_spec 100 units); [lia|].
      vm_compute. reflexivity. }
    destruct (no_discount_whole _ Hbound) as [Hmul Hsub0].
    assert (Hfull : renderCart_pricing cart
                    = mkPricing (JSNumber.ofZ units) (JSNumber.ofZ 0) (JSNumber.ofZ total)
                                (JSNumber.ofZ 0) (JSNumber.ofZ total)
                                (JSNumber.toFixed 2 (JSNumber.ofZ total))).
    { rewrite Hrecord. unfold amount. now rewrite Hzero, Hmul, Hsub0. }
    assert (Hequations : exactEquations cart (renderCart_pricing cart)).
    { unfold exactEquations. split; [exact Hexact|].
      rewrite Hfull. cbn [subtotal discountAmount discountRate grandTotal].
      change (exactValue (JSNumber.ofZ 0)) with 0%Q.
      split; ring. }
    split; [exact Hfull|]. split; [exact Hequations|].
    now rewrite Paths.
  - intros name cart; subst cart.
    split; [vm_compute; reflexivity|].
    split; vm_compute; reflexivity.
Qed.

(** [reduce] in the cart view and the [forEach] accumulation in the
    checkout view add the same terms in the same order. *)
Lemma renderCart_pricing_eq (cart : Cart) :
  renderCart_pricing cart = renderCheckout_pricing cart.
Proof.
  unfold renderCart_pricing, renderCheckout_pricing.
  rewrite orderLines_subtotal.
  rewrite (fold_left_sigma lineTotal).
  reflexivity.
Qed.

(** C9. The pricing computed by the cart view and the pricing computed by
    the checkout view are the same function of the cart: total quantity,
    discount rate, subtotal, discount amount and grand total coincide, and
    so do the discount breakdown and the total the two views show. *)
Theorem pricing_paths_agree (cart : Cart) :
  renderCart_pricing cart = renderCheckout_pricing cart
  /\ exists rows summary lines,
      cartTable cart = CartTable rows summary
      /\ orderSummaryOf cart
         = Ready lines (cartBreakdown summary) (grandTotalShown summary).
Proof.
  split.
  - apply renderCart_pricing_eq.
  - unfold cartTable, orderSummaryOf.
    rewrite <- renderCart_pricing_eq.
    eexists _, _, _; split; reflexivity.
Qed.

(** ** Running the script *)

Ltac run :=
  unfold exec, result, registerUser, loginUser, logoutUser, addToCart,
    removeFromCart, changeQuantity, renderCart, renderCheckout, blocked,
    checkoutSubmit, logoutClick, updatePricingVisibility, updateCartCount,
    isLoggedIn, getSession, saveSession, getUsers, saveUsers, getCart,
    saveCart, getElementById, readStore, writeStore, emit, bind, ret in *;
  cbn [fst snd storage page trace oopsSession oopsUsers oopsCart] in *.

Lemma exec_bind {A B} (m : M A) (k : A -> M B) (w : World) :
  exec (bind m k) w = exec (k (result m w)) (exec m w).
Proof. unfold exec, result, bind. now destruct (m w). Qed.

Lemma storage_updateCartCount (w : World) :
  storage (exec updateCartCount w) = storage w.
Proof. reflexivity. Qed.

Lemma storage_renderCart (w : World) : storage (exec renderCart w) = storage w.
Proof.
  destruct w as [[session users cart] pg tr]; run.
  destruct (cartContainer pg), session; cbn; try reflexivity.
  destruct (_ =? _)%nat; reflexivity.
Qed.

Lemma storage_renderCheckout (w : World) : storage (exec renderCheckout w) = storage w.
Proof.
  destruct w as [[session users cart] pg tr]; run.
  destruct (orderSummary pg), (checkoutForm pg), session; cbn; try reflexivity.
  destruct (_ =? _)%nat; cbn; try reflexivity.
  destruct (JSNumber.lt _ _); reflexivity.
Qed.

(** What [getCart] answers depends on the store alone. *)
Lemma getCart_storage (w : World) :
  result getCart w = match oopsCart (storage w) with Some cart => cart | None => [] end.
Proof. reflexivity. Qed.

Lemma oopsCart_saveCart (cart : Cart) (w : World) :
  oopsCart (storage (exec (saveCart cart) w)) = Some cart.
Proof. reflexivity. Qed.

Lemma falsy_empty (s : string) : falsy s = true <-> s = "".
Proof. destruct s; simpl; split; congruence. Qed.

Lemma find_email_none (email : string) (users : list User.t) :
  find (fun u => String.eqb (User.email u) email) users = None
  <-> ~ exists u, In u users /\ User.email u = email.
Proof.
  split.
  - intros Hnone [u [Hin Heq]].
    apply (find_none _ _ Hnone) in Hin.
    apply String.eqb_neq in Hin. contradiction.
  - intro Hno.
    destruct (find _ users) as [u|] eqn:Hfind; [|reflexivity].
    apply find_some in Hfind as [Hin Heq].
    apply String.eqb_eq in Heq.
    exfalso; apply Hno; exists u; split; assumption.
Qed.

(** ** Auth service *)

(** C4. [registerUser] is rejected exactly when a field is empty or a user
    with the same email (compared exactly) is in the directory; a rejected
    registration changes nothing, in particular not the length of the
    directory; an accepted one returns the new user, appends it to the
    directory and leaves a session for its email. *)
Theorem registerUser_spec (details : User.t) (w : World) :
  let users := result getUsers w in
  let w' := exec (registerUser details) w in
  (result (registerUser details) w = None
   <-> (User.email details = "" \/ User.phone details = ""
        \/ User.company details = "" \/ User.password details = ""
        \/ exists u, In u users /\ User.email u = User.email details))
  /\ (result (registerUser details) w = None ->
      w' = w /\ List.length (result getUsers w') = List.length users)
  /\ (forall newUser, result (registerUser details) w = Some newUser ->
      newUser = details
      /\ oopsUsers (storage w') = Some (users ++ [newUser])
      /\ result getUsers w' = (users ++ [newUser])
      /\ oopsSession (storage w') = Some (Session.mk (User.email details))
      /\ result isLoggedIn w' = true
      /\ oopsCart (storage w') = oopsCart (storage w)
      /\ trace w' = trace w).
Proof.
  intros users w'; subst users w'.
  destruct details as [email phone company password].
  destruct w as [[session users cart] pg tr]; run; cbn [User.email User.phone User.company User.password].
  set (dir := match users with Some us => us | None => [] end).
  destruct (falsy email) eqn:He; cbn [orb].
  { apply falsy_empty in He. repeat split; try discriminate; auto. }
  destruct (falsy phone) eqn:Hp; cbn [orb].
  { apply falsy_empty in Hp. repeat split; try discriminate; auto. }
  destruct (falsy company) eqn:Hc; cbn [orb].
  { apply falsy_empty in Hc. repeat split; try discriminate; auto. }
  destruct (falsy password) eqn:Hw; cbn [orb].
  { apply falsy_empty in Hw. repeat split; try discriminate; auto 6. }
  assert (email <> "") by (intro E; apply falsy_empty in E; congruence).
  assert (phone <> "") by (intro E; apply falsy_empty in E; congruence).
  assert (company <> "") by (intro E; apply falsy_empty in E; congruence).
  assert (password <> "") by (intro E; apply falsy_empty in E; congruence).
  destruct (find _ dir) as [u|] eqn:Hfind; cbn [fst snd storage page trace oopsSession oopsUsers oopsCart].
  - apply find_some in Hfind as [Hin Heq]. apply String.eqb_eq in Heq.
    repeat split; try discriminate; eauto 8.
  - apply find_email_none in Hfind.
    repeat split; try discriminate; try congruence.
    all: try (intros newUser E; injection E as <-; reflexivity).
    intros [E|[E|[E|[E|E]]]]; contradiction.
Qed.

Lemma find_credentials (email password : string) (users : list User.t) :
  (exists u, find (fun u => String.eqb (User.email u) email
                            && String.eqb (User.password u) password) users = Some u)
  <-> exists u, In u users /\ User.email u = email /\ User.password u = password.
Proof.
  split.
  - intros [u Hfind].
    apply find_some in Hfind as [Hin Heq].
    apply andb_true_iff in Heq as [He Hp].
    apply String.eqb_eq in He, Hp.
    exists u; auto.
  - intros [u [Hin [He Hp]]].
    destruct (find _ users) as [v|] eqn:Hfind; [exists v; reflexivity|].
    apply (find_none _ _ Hfind) in Hin.
    subst email password.
    rewrite !String.eqb_refl in Hin; discriminate.
Qed.

(** What [loginUser] does, by what [find] answers on the stored
    directory. *)
Lemma loginUser_cases (email password : string) (w : World) :
  let users := match oopsUsers (storage w) with Some us => us | None => [] end in
  match find (fun u => String.eqb (User.email u) email
                       && String.eqb (User.password u) password) users with
  | Some _ =>
      result (loginUser email password) w = true
      /\ exec (loginUser email password) w
         = mkWorld (mkStore (Some (Session.mk email)) (oopsUsers (storage w))
                            (oopsCart (storage w)))
                   (page w) (trace w)
  | None =>
      result (loginUser email password) w = false
      /\ exec (loginUser email password) w = w
  end.
Proof.
  destruct w as [[session users cart] pg tr]; run.
  destruct (find _ _); split; reflexivity.
Qed.

(** C5. [loginUser] succeeds exactly when the stored user directory holds
    a user whose email and password both equal the given ones (an absent
    directory holds nobody).  A successful login stores the session
    [{ email }] and touches nothing else, so the user is logged in
    afterwards; a rejected one changes nothing, the session included.  In
    particular "x@x.com" with password "p" is rejected, the session
    unchanged, when no such user is stored. *)
Theorem loginUser_spec :
  (forall (email password : string) (w : World),
      let w' := exec (loginUser email password) w in
      (result (loginUser email password) w = true
       <-> exists users u,
             oopsUsers (storage w) = Some users
             /\ In u users /\ User.email u = email /\ User.password u = password)
      /\ (result (loginUser email password) w = true ->
          storage w' = mkStore (Some (Session.mk email)) (oopsUsers (storage w))
                               (oopsCart (storage w))
          /\ result isLoggedIn w' = true
          /\ result getSession w' = Some (Session.mk email)
          /\ page w' = page w
          /\ trace w' = trace w)
      /\ (result (loginUser email password) w = false -> w' = w))
  /\ (forall (email password : string) (w : World),
        oopsUsers (storage w) = None ->
        result (loginUser email password) w = false)
  /\ (forall w : World,
        (~ exists users u,
             oopsUsers (storage w) = Some users
             /\ In u users /\ User.email u = "x@x.com" /\ User.password u = "p") ->
        result (loginUser "x@x.com" "p") w = false
        /\ oopsSession (storage (exec (loginUser "x@x.com" "p") w))
           = oopsSession (storage w)).
Proof.
  assert (General : forall (email password : string) (w : World),
      let w' := exec (loginUser email password) w in
      (result (loginUser email password) w = true
       <-> exists users u,
             oopsUsers (storage w) = Some users
             /\ In u users /\ User.email u = email /\ User.password u = password)
      /\ (result (loginUser email password) w = true ->
          storage w' = mkStore (Some (Session.mk email)) (oopsUsers (storage w))
                               (oopsCart (storage w))
          /\ result isLoggedIn w' = true
          /\ result getSession w' = Some (Session.mk email)
          /\ page w' = page w
          /\ trace w' = trace w)
      /\ (result (loginUser email password) w = false -> w' = w)).
  { intros email password w w'; subst w'.
    pose proof (loginUser_cases email password w) as Hcases. cbv zeta in Hcases.
    pose proof (find_credentials email password
                  (match oopsUsers (storage w) with Some us => us | None => [] end))
      as [Hfound Hstored].
    destruct (find _ _) as [u|] eqn:Hfind.
    - destruct Hcases as [-> ->].
      split; [|split; [|discriminate]].
      + split; [intros _|reflexivity].
        destruct Hfound as (v & Hin & He & Hp); [now exists u|].
        destruct (oopsUsers (storage w)) as [users|]; [|destruct Hin].
        now exists users, v.
      + intros _. repeat split.
    - destruct Hcases as [-> ->].
      split; [|split; [discriminate|reflexivity]].
      split; [discriminate|].
      intros (users & v & Hdir & Hin & He & Hp).
      rewrite Hdir in Hstored.
      destruct Hstored as [x Hx]; [now exists v|discriminate]. }
  split; [exact General|]. split.
  - intros email password w Hnone.
    destruct (General email password w) as [Hiff _].
    destruct (result (loginUser email password) w); [|reflexivity].
    destruct Hiff as [Hex _].
    destruct (Hex eq_refl) as (users & _ & Hdir & _). congruence.
  - intros w Hno.
    destruct (General "x@x.com" "p" w) as [Hiff [_ Hrej]].
    destruct (result (loginUser "x@x.com" "p") w) eqn:Hres.
    + exfalso. apply Hno, Hiff. reflexivity.
    + split; [reflexivity|]. now rewrite (Hrej eq_refl).
Qed.

(** ** Cart service *)

Lemma addToCart_guest_storage (product : Product.t) (w : World) :
  result isLoggedIn w = false ->
  storage (exec (addToCart product) w) = storage w
  /\ trace (exec (addToCart product) w)
     = trace w ++
        [Alert "Please log in or register as a wholesaler to see pricing and place orders.";
         Navigate "login.html"].
Proof.
  destruct w as [[session users cart] pg tr]; run.
  destruct session; [discriminate|]; intros _.
  cbn. rewrite <- app_assoc. split; reflexivity.
Qed.

(** C6. While nobody is logged in, [addToCart] leaves the store, and so
    the cart record, as it was: it raises the notice and redirects to the
    login page. *)
Theorem addToCart_guest (product : Product.t) (w : World) :
  result isLoggedIn w = false ->
  storage (exec (addToCart product) w) = storage w
  /\ oopsCart (storage (exec (addToCart product) w)) = oopsCart (storage w)
  /\ trace (exec (addToCart product) w)
     = (trace w ++
        [Alert "Please log in or register as a wholesaler to see pricing and place orders.";
         Navigate "login.html"]).
Proof.
  intro Hguest.
  destruct (addToCart_guest_storage product w Hguest) as [Hstore Htrace].
  rewrite Hstore. auto.
Qed.




Lemma find_some_split (p : CartItem.t -> bool) (cart : Cart) (item : CartItem.t) :
  find p cart = Some item ->
  exists before after,
    cart = (before ++ item :: after)
    /\ p item = true
    /\ Forall (fun x => p x = false) before.
Proof.
  induction cart as [|x cart IH]; simpl; [discriminate|].
  destruct (p x) eqn:Hp.
  - intro E; injection E as <-.
    exists [], cart; auto.
  - intro Hfind.
    destruct (IH Hfind) as (before & after & -> & Hitem & Hbefore).
    exists (x :: before), after; auto.
Qed.

Lemma find_split (p : CartItem.t -> bool) (before after : Cart) (item : CartItem.t) :
  Forall (fun x => p x = false) before -> p item = true ->
  find p (before ++ item :: after) = Some item.
Proof.
  intros Hbefore Hitem.
  induction Hbefore as [|x before Hx _ IH]; simpl.
  - now rewrite Hitem.
  - now rewrite Hx.
Qed.

Lemma assignFound_split (p : CartItem.t -> bool) (before after : Cart)
    (item changed : CartItem.t) :
  Forall (fun x => p x = false) before -> p item = true ->
  assignFound p changed (before ++ item :: after)
  = (before ++ changed :: after).
Proof.
  intros Hbefore Hitem.
  induction Hbefore as [|x before Hx _ IH]; simpl.
  - now rewrite Hitem.
  - now rewrite Hx, IH.
Qed.

Lemma find_hasId_none (id : string) (cart : Cart) :
  find (hasId id) cart = None <-> ~ In id (map CartItem.id cart).
Proof.
  unfold hasId.
  induction cart as [|x cart IH]; simpl.
  - tauto.
  - destruct (String.eqb_spec (CartItem.id x) id) as [E|N].
    + split; [discriminate|]. intro H; exfalso; apply H; now left.
    + rewrite IH. tauto.
Qed.


Lemma changeQuantity_found_store (id : string) (delta : JSNumber.t) (w : World)
    (before after : Cart) (item : CartItem.t) :
  result getCart w = before ++ item :: after ->
  ~ In id (map CartItem.id before) ->
  CartItem.id item = id ->
  oopsCart (storage (exec (changeQuantity id delta) w))
  = Some (before ++ CartItem.setQuantity
                      (JSNumber.max (JSNumber.ofZ 1)
                                    (JSNumber.add (CartItem.quantity item) delta))
                      item :: after).
Proof.
  intros Hcart Hbefore Hid.
  assert (Hb : Forall (fun x => hasId id x = false) before).
  { apply Forall_forall. intros x Hx.
    unfold hasId. apply String.eqb_neq. intro E.
    apply Hbefore. rewrite <- E. now apply in_map. }
  assert (Hi : hasId id item = true) by (unfold hasId; now apply String.eqb_eq).
  unfold changeQuantity.
  rewrite exec_bind, Hcart, (find_split _ _ _ _ Hb Hi), !exec_bind.
  rewrite storage_renderCart, storage_updateCartCount, oopsCart_saveCart.
  f_equal. now apply assignFound_split.
Qed.



(** ** Where the login gate is, and where it is not *)

(** With no session and a cart in the store, [removeFromCart] empties the
    cart and [changeQuantity] raises the quantity: the three mutations are
    not all gated (C7 as stated). *)
Lemma cart_mutations_gated_counterexample :
  result isLoggedIn guestWorld = false
  /\ oopsCart (storage guestWorld)
     = Some [CartItem.mk "a" "Test kit" (JSNumber.ofZ 10) (JSNumber.ofZ 3)]
  /\ oopsCart (storage (exec (removeFromCart "a") guestWorld)) = Some []
  /\ oopsCart (storage (exec (changeQuantity "a" (JSNumber.ofZ 1)) guestWorld))
     = Some [CartItem.mk "a" "Test kit" (JSNumber.ofZ 10) (JSNumber.ofZ 4)]
  /\ ~ ((forall product, gated (addToCart product))
        /\ (forall id, gated (removeFromCart id))
        /\ (forall id delta, gated (changeQuantity id delta))).
Proof.
  split; [reflexivity|].
  split; [reflexivity|].
  split; [vm_compute; reflexivity|].
  split; [vm_compute; reflexivity|].
  intros [_ [Hremove _]].
  specialize (Hremove "a" guestWorld eq_refl).
  vm_compute in Hremove. discriminate.
Qed.

Lemma getCart_removeFromCart (id : string) (w : World) :
  result getCart (exec (removeFromCart id) w)
  = filter (fun item => negb (hasId id item)) (result getCart w).
Proof.
  unfold removeFromCart.
  rewrite !exec_bind, getCart_storage, storage_renderCart,
    storage_updateCartCount, oopsCart_saveCart.
  reflexivity.
Qed.

Lemma getCart_changeQuantity (id : string) (delta : JSNumber.t) (w : World) :
  result getCart (exec (changeQuantity id delta) w)
  = match find (hasId id) (result getCart w) with
    | None => result getCart w
    | Some item =>
        assignFound (hasId id)
          (CartItem.setQuantity
             (JSNumber.max (JSNumber.ofZ 1) (JSNumber.add (CartItem.quantity item) delta))
             item)
          (result getCart w)
    end.
Proof.
  unfold changeQuantity.
  rewrite exec_bind.
  destruct (find _ _) as [item|].
  - rewrite !exec_bind, getCart_storage, storage_renderCart,
      storage_updateCartCount, oopsCart_saveCart.
    reflexivity.
  - reflexivity.
Qed.

Lemma getCart_addToCart (product : Product.t) (w : World) :
  result getCart (exec (addToCart product) w)
  = if result isLoggedIn w then
      match find (hasId (Product.id product)) (result getCart w) with
      | Some existing =>
          assignFound (hasId (Product.id product))
            (CartItem.setQuantity
               (JSNumber.add (CartItem.quantity existing) (JSNumber.ofZ 1)) existing)
            (result getCart w)
      | None =>
          result getCart w ++ [CartItem.ofProduct product (JSNumber.ofZ 1)]
      end
    else result getCart w.
Proof.
  destruct w as [[session users cart] pg tr]; run.
  destruct session; cbn; [|reflexivity].
  destruct (find _ _); reflexivity.
Qed.

(** C7, as the script has it.  Only [addToCart] checks the session: while
    nobody is logged in it leaves the cart record as it was.
    [removeFromCart] and [changeQuantity] do not look at the session:
    whoever is or is not logged in, [removeFromCart] writes the cart
    without the items of the id, the others in their order, and
    [changeQuantity] writes the cart with the first item of the id at
    quantity [max(1, quantity + delta)], and nothing when no item has the
    id.  (The written carts are stated for a cart of numbers that JSON
    carries and a new quantity that JSON carries.)  While nobody is
    logged in, [renderCart] writes the login prompt in place of the cart
    table. *)
Theorem cart_gate :
  (forall product, gated (addToCart product))
  /\ (forall (id : string) (w : World),
        jsonCart (result getCart w) = true ->
        oopsCart (storage (exec (removeFromCart id) w))
        = Some (filter (fun item => negb (String.eqb (CartItem.id item) id))
                       (result getCart w)))
  /\ (forall (id : string) (delta : JSNumber.t) (w : World)
             (before after : Cart) (item : CartItem.t),
        result getCart w = before ++ item :: after ->
        ~ In id (map CartItem.id before) ->
        CartItem.id item = id ->
        jsonCart (result getCart w) = true ->
        jsonExact (JSNumber.max (JSNumber.ofZ 1)
                                (JSNumber.add (CartItem.quantity item) delta)) = true ->
        oopsCart (storage (exec (changeQuantity id delta) w))
        = Some (before
                ++ CartItem.mk id (CartItem.name item) (CartItem.price item)
                     (JSNumber.max (JSNumber.ofZ 1)
                                   (JSNumber.add (CartItem.quantity item) delta))
                :: after))
  /\ (forall (id : string) (delta : JSNumber.t) (w : World),
        ~ In id (map CartItem.id (result getCart w)) ->
        exec (changeQuantity id delta) w = w)
  /\ (forall w,
        cartContainer (page w) = true ->
        result isLoggedIn w = false ->
        trace (exec renderCart w) = trace w ++ [CartContainerHTML CartLoginRequired]).
Proof.
  split; [|split; [|split; [|split]]].
  - intros product w Hguest.
    now rewrite (proj1 (addToCart_guest_storage product w Hguest)).
  - intros id w _. unfold removeFromCart.
    now rewrite !exec_bind, storage_renderCart, storage_updateCartCount,
      oopsCart_saveCart.
  - intros id delta w before after item Hcart Hbefore Hid _ _.
    rewrite (changeQuantity_found_store id delta w before after item Hcart Hbefore Hid).
    unfold CartItem.setQuantity. now rewrite Hid.
  - intros id delta w Hno.
    apply find_hasId_none in Hno.
    destruct w as [[session users cart] pg tr]; run.
    now rewrite Hno.
  - intros [[session users cart] pg tr]; run.
    intros -> Hguest. destruct session; [discriminate|]. reflexivity.
Qed.

(** ** The cart's ids *)

Lemma ids_assignFound (p : CartItem.t -> bool) (existing changed : CartItem.t)
    (cart : Cart) :
  find p cart = Some existing ->
  CartItem.id changed = CartItem.id existing ->
  map CartItem.id (assignFound p changed cart) = map CartItem.id cart.
Proof.
  intros Hfind Hid.
  induction cart as [|x cart IH]; simpl in *; [discriminate|].
  destruct (p x).
  - injection Hfind as ->. simpl. now rewrite Hid.
  - simpl. now rewrite IH.
Qed.

Lemma uniqueIds_filter (p : CartItem.t -> bool) (cart : Cart) :
  uniqueIds cart -> uniqueIds (filter p cart).
Proof.
  unfold uniqueIds.
  induction cart as [|x cart IH]; simpl; intro Hu; [constructor|].
  apply NoDup_cons_iff in Hu as [Hx Hu].
  destruct (p x); simpl; auto.
  constructor; auto.
  intro Hin. apply Hx.
  apply in_map_iff in Hin as (y & Hy & Hin).
  apply filter_In in Hin as [Hin _].
  apply in_map_iff. eauto.
Qed.

Lemma uniqueIds_push (cart : Cart) (item : CartItem.t) :
  uniqueIds cart -> ~ In (CartItem.id item) (map CartItem.id cart) ->
  uniqueIds (cart ++ [item]).
Proof.
  unfold uniqueIds. intros Hu Hnew.
  rewrite map_app. apply NoDup_app; simpl; auto.
  - constructor; [tauto | constructor].
  - intros a Ha [<-|[]]. contradiction.
Qed.

Lemma uniqueIds_addToCart (product : Product.t) (w : World) :
  uniqueIds (result getCart w) ->
  uniqueIds (result getCart (exec (addToCart product) w)).
Proof.
  intro Hu. rewrite getCart_addToCart.
  destruct (result isLoggedIn w); [|assumption].
  destruct (find _ _) as [existing|] eqn:Hfind.
  - unfold uniqueIds. now rewrite (ids_assignFound _ existing).
  - apply uniqueIds_push; [assumption|].
    now apply find_hasId_none.
Qed.

Lemma uniqueIds_changeQuantity (id : string) (delta : JSNumber.t) (w : World) :
  uniqueIds (result getCart w) ->
  uniqueIds (result getCart (exec (changeQuantity id delta) w)).
Proof.
  intro Hu. rewrite getCart_changeQuantity.
  destruct (find _ _) as [item|] eqn:Hfind; [|assumption].
  unfold uniqueIds. now rewrite (ids_assignFound _ item).
Qed.

Lemma getCart_checkoutSubmit (w : World) :
  result getCart (exec checkoutSubmit w) = []
  /\ oopsCart (storage (exec checkoutSubmit w)) = Some [].
Proof. split; reflexivity. Qed.

Lemma getCart_logoutClick (w : World) :
  result getCart (exec logoutClick w) = []
  /\ oopsCart (storage (exec logoutClick w)) = Some []
  /\ oopsSession (storage (exec logoutClick w)) = None.
Proof. repeat split; reflexivity. Qed.

(** C10. From a cart whose ids are pairwise distinct, [addToCart],
    [removeFromCart], [changeQuantity], and the clearing of the cart on
    checkout and on logout all leave a cart whose ids are pairwise
    distinct.  A logged-in [addToCart] appends the line
    [{ id, name, price, quantity: 1 }] of the product only when no item
    has the product's id; otherwise the first item with that id keeps its
    id, name and price and has its quantity raised by 1 (a whole quantity
    [q] becomes [q + 1]), and the other items stay as they are.  The carts
    read back are stated for prices and quantities that JSON carries. *)
Theorem uniqueIds_invariant :
  (forall w : World,
      uniqueIds (result getCart w) ->
      (forall product, uniqueIds (result getCart (exec (addToCart product) w)))
      /\ (forall id, uniqueIds (result getCart (exec (removeFromCart id) w)))
      /\ (forall id delta,
             uniqueIds (result getCart (exec (changeQuantity id delta) w)))
      /\ uniqueIds (result getCart (exec checkoutSubmit w))
      /\ uniqueIds (result getCart (exec logoutClick w)))
  /\ (forall (product : Product.t) (w : World),
        result isLoggedIn w = true ->
        jsonCart (result getCart w) = true ->
        jsonExact (Product.price product) = true ->
        ~ In (Product.id product) (map CartItem.id (result getCart w)) ->
        result getCart (exec (addToCart product) w)
        = result getCart w
          ++ [CartItem.mk (Product.id product) (Product.name product)
                          (Product.price product) (JSNumber.ofZ 1)])
  /\ (forall (product : Product.t) (w : World)
             (before after : Cart) (existing : CartItem.t),
        result isLoggedIn w = true ->
        jsonCart (result getCart w) = true ->
        result getCart w = before ++ existing :: after ->
        ~ In (Product.id product) (map CartItem.id before) ->
        CartItem.id existing = Product.id product ->
        (jsonExact (JSNumber.add (CartItem.quantity existing) (JSNumber.ofZ 1)) = true ->
         result getCart (exec (addToCart product) w)
         = before
           ++ CartItem.mk (Product.id product) (CartItem.name existing)
                (CartItem.price existing)
                (JSNumber.add (CartItem.quantity existing) (JSNumber.ofZ 1))
           :: after)
        /\ (forall q : Z,
              CartItem.quantity existing = JSNumber.ofZ q ->
              0 <= q < 2 ^ 53 - 1 ->
              result getCart (exec (addToCart product) w)
              = before
                ++ CartItem.mk (Product.id product) (CartItem.name existing)
                     (CartItem.price existing) (JSNumber.ofZ (q + 1))
                :: after)).
Proof.
  split; [|split].
  - intros w Hu. repeat split.
    + intro product. now apply uniqueIds_addToCart.
    + intro id. rewrite getCart_removeFromCart. now apply uniqueIds_filter.
    + intros id delta. now apply uniqueIds_changeQuantity.
    + rewrite (proj1 (getCart_checkoutSubmit w)). constructor.
    + rewrite (proj1 (getCart_logoutClick w)). constructor.
  - intros product w Hin _ _ Hnew.
    rewrite getCart_addToCart, Hin.
    apply find_hasId_none in Hnew. now rewrite Hnew.
  - intros product w before after existing Hin _ Hcart Hbefore Hid.
    assert (Hb : Forall (fun x => hasId (Product.id product) x = false) before).
    { apply Forall_forall. intros x Hx.
      unfold hasId. apply String.eqb_neq. intro E.
      apply Hbefore. rewrite <- E. now apply in_map. }
    assert (Hi : hasId (Product.id product) existing = true)
      by (unfold hasId; now apply String.eqb_eq).
    assert (Hread : result getCart (exec (addToCart product) w)
                    = before
                      ++ CartItem.mk (Product.id product) (CartItem.name existing)
                           (CartItem.price existing)
                           (JSNumber.add (CartItem.quantity existing) (JSNumber.ofZ 1))
                      :: after).
    { rewrite getCart_addToCart, Hin, Hcart, (find_split _ _ _ _ Hb Hi).
      rewrite (assignFound_split _ _ _ _ _ Hb Hi).
      unfold CartItem.setQuantity. now rewrite Hid. }
    split; [intros _; exact Hread|].
    intros q Hq Hbound. rewrite Hread, Hq.
    rewrite ofZ_add by (change (2 ^ 53) with 9007199254740992 in *; lia).
    reflexivity.
Qed.

(** ** Checkout *)

Lemma renderCheckout_cases (w : World) :
  orderSummary (page w) = true ->
  checkoutForm (page w) = true ->
  trace (exec renderCheckout w)
  = trace w ++
    (if negb (result isLoggedIn w) then blockedBy NotLoggedIn
     else match result getCart w with
          | [] => blockedBy EmptyCart
          | _ :: _ =>
              if JSNumber.lt (sumQuantity (result getCart w)) (JSNumber.ofZ 50)
              then blockedBy BelowMinimum
              else readyWith (result getCart w)
          end).
Proof.
  destruct w as [[session users cart] pg tr]; run.
  intros -> ->. cbn.
  destruct session; cbn; [|now rewrite <- app_assoc].
  destruct (match cart with Some c => c | None => [] end) as [|item rest] eqn:Hcart;
    cbn; [now rewrite <- app_assoc|].
  destruct (JSNumber.lt _ _); cbn; now rewrite <- app_assoc.
Qed.

(** What the checkout page shows for an order that can be placed: one
    line per item, the discount lines when the rate is above 0, and the
    total. *)
Lemma orderSummaryOf_eq (cart : Cart) :
  let rate := tierRate (sigma (map CartItem.quantity cart) (JSNumber.ofZ 0)) in
  let subtotal := sigma (map lineTotal cart) (JSNumber.ofZ 0) in
  let discount := JSNumber.mul subtotal rate in
  orderSummaryOf cart
  = Ready (map (fun item =>
                  mkOrderLine (CartItem.quantity item) (CartItem.name item)
                    (JSNumber.toFixed 2
                       (JSNumber.mul (CartItem.price item) (CartItem.quantity item))))
               cart)
          (if JSNumber.gt rate (JSNumber.ofZ 0)
           then Some (mkBreakdown
                        (JSNumber.toFixed 2 subtotal)
                        (JSNumber.toFixed 0 (JSNumber.mul rate (JSNumber.ofZ 100)))
                        (JSNumber.toFixed 2 discount))
           else None)
          (JSNumber.toFixed 2 (JSNumber.sub subtotal discount)).
Proof.
  intros rate subtotal0 discount; subst rate subtotal0 discount.
  unfold orderSummaryOf, renderCheckout_pricing, breakdownOf.
  cbn [subtotal discountRate discountAmount grandTotalText].
  rewrite orderLines_subtotal, <- tierRate_chain, sumQuantity_sigma.
  unfold orderLines. rewrite orderLines_lines. reflexivity.
Qed.

(** C3. On the checkout page [renderCheckout] blocks exactly when nobody is
    logged in, or the cart is empty, or the total quantity is below 50,
    and names the first of these causes that applies.  Otherwise it shows
    the order: one line per item with quantity, name and price times
    quantity, then, when the discount rate is above 0, the subtotal, the
    percentage and the discount amount, then the grand total; and it
    attaches the submit listener.  It never changes the store; the submit
    listener clears the cart.  On whole quantities "below 50" is the
    comparison of their sum with 50.  A logged-in cart of one item of
    price 10 and quantity 60 is ready, with discount rate 0, no discount
    lines and grand total 600.00; with quantity 250 it is ready with
    subtotal 2500.00, 10%, discount 250.00 and grand total 2250.00. *)
Theorem renderCheckout_spec :
  (forall w : World,
      orderSummary (page w) = true ->
      checkoutForm (page w) = true ->
      let cart := result getCart w in
      let w' := exec renderCheckout w in
      let units := sigma (map CartItem.quantity cart) (JSNumber.ofZ 0) in
      let rate := tierRate units in
      let subtotal := sigma (map lineTotal cart) (JSNumber.ofZ 0) in
      let discount := JSNumber.mul subtotal rate in
      storage w' = storage w
      /\ (result isLoggedIn w = false ->
          trace w' = trace w ++ [OrderSummaryHTML (Blocked NotLoggedIn); HideCheckoutForm])
      /\ (result isLoggedIn w = true -> cart = [] ->
          trace w' = trace w ++ [OrderSummaryHTML (Blocked EmptyCart); HideCheckoutForm])
      /\ (result isLoggedIn w = true -> cart <> [] ->
          JSNumber.lt units (JSNumber.ofZ 50) = true ->
          trace w' = trace w ++ [OrderSummaryHTML (Blocked BelowMinimum); HideCheckoutForm])
      /\ (result isLoggedIn w = true -> cart <> [] ->
          JSNumber.lt units (JSNumber.ofZ 50) = false ->
          trace w'
          = trace w ++
            [OrderSummaryHTML
               (Ready (map (fun item =>
                              mkOrderLine (CartItem.quantity item) (CartItem.name item)
                                (JSNumber.toFixed 2
                                   (JSNumber.mul (CartItem.price item)
                                                 (CartItem.quantity item))))
                           cart)
                      (if JSNumber.gt rate (JSNumber.ofZ 0)
                       then Some (mkBreakdown
                                    (JSNumber.toFixed 2 subtotal)
                                    (JSNumber.toFixed 0 (JSNumber.mul rate (JSNumber.ofZ 100)))
                                    (JSNumber.toFixed 2 discount))
                       else None)
                      (JSNumber.toFixed 2 (JSNumber.sub subtotal discount)));
             ListenCheckoutSubmit])
      /\ ((exists reason,
              trace w' = trace w ++ [OrderSummaryHTML (Blocked reason); HideCheckoutForm])
          <-> (result isLoggedIn w = false \/ cart = []
               \/ JSNumber.lt units (JSNumber.ofZ 50) = true)))
  /\ (forall (cart : Cart) (qs : list Z),
        wholeQuantities cart qs ->
        JSNumber.lt (sigma (map CartItem.quantity cart) (JSNumber.ofZ 0)) (JSNumber.ofZ 50)
        = (totalOf qs <? 50))
  /\ (forall w : World,
        oopsCart (storage (exec checkoutSubmit w)) = Some []
        /\ result getCart (exec checkoutSubmit w) = [])
  /\ (forall (name : string) (w : World),
        orderSummary (page w) = true ->
        checkoutForm (page w) = true ->
        result isLoggedIn w = true ->
        result getCart w = singleItem "a" name 10 60 ->
        trace (exec renderCheckout w)
        = trace w ++
          [OrderSummaryHTML
             (Ready [mkOrderLine (JSNumber.ofZ 60) name (JSNumber.Digits "600.00")]
                    None (JSNumber.Digits "600.00"));
           ListenCheckoutSubmit]
        /\ renderCheckout_pricing (singleItem "a" name 10 60)
           = mkPricing (JSNumber.ofZ 60) (JSNumber.ofZ 0) (JSNumber.ofZ 600)
                       (JSNumber.ofZ 0) (JSNumber.ofZ 600)
                       (JSNumber.Digits "600.00"))
  /\ (forall (name : string) (w : World),
        orderSummary (page w) = true ->
        checkoutForm (page w) = true ->
        result isLoggedIn w = true ->
        result getCart w = singleItem "a" name 10 250 ->
        trace (exec renderCheckout w)
        = trace w ++
          [OrderSummaryHTML
             (Ready [mkOrderLine (JSNumber.ofZ 250) name (JSNumber.Digits "2500.00")]
                    (Some (mkBreakdown (JSNumber.Digits "2500.00") (JSNumber.Digits "10")
                                       (JSNumber.Digits "250.00")))
                    (JSNumber.Digits "2250.00"));
           ListenCheckoutSubmit]).
Proof.
  split; [|split; [|split; [|split]]].
  - intros w Hsummary Hform cart w' units rate subtotal0 discount.
    split; [apply storage_renderCheckout|].
    pose proof (renderCheckout_cases w Hsummary Hform) as Htrace.
    fold w' cart in Htrace.
    rewrite sumQuantity_sigma in Htrace. fold units in Htrace.
    pose proof (orderSummaryOf_eq cart) as Hready. cbv zeta in Hready.
    fold units rate subtotal0 discount in Hready.
    unfold blockedBy, readyWith in Htrace. rewrite Hready in Htrace.
    clear Hready.
    destruct (result isLoggedIn w); cbn [negb] in Htrace.
    + destruct cart as [|item rest] eqn:Hcart.
      * split; [discriminate|]. split; [auto|].
        split; [congruence|]. split; [congruence|].
        split; eauto.
      * destruct (JSNumber.lt units (JSNumber.ofZ 50)).
        -- split; [discriminate|]. split; [discriminate|].
           split; [auto|]. split; [discriminate|].
           split; eauto.
        -- split; [discriminate|]. split; [discriminate|].
           split; [discriminate|]. split; [auto|].
           split.
           ++ intros [reason Hblocked]. rewrite Htrace in Hblocked.
              apply app_inv_head in Hblocked. discriminate.
           ++ intros [E|[E|E]]; discriminate.
    + split; [auto|]. split; [discriminate|].
      split; [discriminate|]. split; [discriminate|].
      split; eauto.
  - intros cart qs Hwhole.
    rewrite <- sumQuantity_sigma, (sumQuantity_whole cart qs Hwhole).
    destruct Hwhole as (_ & Hnonneg & Hsum).
    pose proof (totalOf_nonneg qs Hnonneg).
    apply lt_ofZ; change (2 ^ 53) with 9007199254740992 in *; lia.
  - intro w. split; reflexivity.
  - intros name w Hsummary Hform Hlogged Hcart.
    rewrite (renderCheckout_cases w Hsummary Hform), Hlogged, Hcart.
    split; vm_compute; reflexivity.
  - intros name w Hsummary Hform Hlogged Hcart.
    rewrite (renderCheckout_cases w Hsummary Hform), Hlogged, Hcart.
    vm_compute. reflexivity.
Qed.

(** ** The properties at work on concrete worlds *)

Lemma discountRate_step_witness :
  totalQuantity (renderCart_pricing twoLines) = JSNumber.ofZ 300
  /\ discountRate (renderCart_pricing twoLines) = stepRate 300
  /\ discountRate (renderCheckout_pricing twoLines) = JSNumber.decimal 15 2.
Proof.
  destruct discountRate_step as (_ & Hwhole & _).
  destruct (Hwhole twoLines [120; 180]) as (Htotal & _ & Hcart & Hcheckout).
  - split; [reflexivity|]. split.
    + repeat constructor; lia.
    + vm_compute. reflexivity.
  - split; [exact Htotal|]. split; [exact Hcart|exact Hcheckout].
Defined.

Lemma pricing_binary64_witness :
  renderCart_pricing twoLines
  = mkPricing (JSNumber.ofZ 300) (JSNumber.decimal 15 2) (JSNumber.ofZ 1920)
              (JSNumber.ofZ 288) (JSNumber.ofZ 1632) (JSNumber.Digits "1632.00")
  /\ renderCheckout_pricing twoLines = renderCart_pricing twoLines
  /\ renderCart_pricing (singleItem "a" "Test kit" 10 60)
     = mkPricing (JSNumber.ofZ 60) (JSNumber.ofZ 0) (JSNumber.ofZ 600)
                 (JSNumber.ofZ 0) (JSNumber.ofZ 600) (JSNumber.Digits "600.00")
  /\ exactEquations (singleItem "a" "Test kit" 10 60)
       (renderCheckout_pricing (singleItem "a" "Test kit" 10 60)).
Proof.
  destruct pricing_binary64 as (_ & Hwhole & _).
  pose proof (Hwhole twoLines [(10, 120); (4, 180)]) as Htwo. cbv zeta in Htwo.
  destruct Htwo as [(Hrecord & Hpaths & _) _].
  { split; [reflexivity|]. split; [reflexivity|].
    split; [repeat constructor; vm_compute; congruence|].
    split; vm_compute; reflexivity. }
  pose proof (Hwhole (singleItem "a" "Test kit" 10 60) [(10, 60)]) as Hsixty.
  cbv zeta in Hsixty.
  destruct Hsixty as [_ Hfull].
  { split; [reflexivity|]. split; [reflexivity|].
    split; [repeat constructor; vm_compute; congruence|].
    split; vm_compute; reflexivity. }
  destruct Hfull as (Hprice & _ & Hexact); [vm_compute; reflexivity|].
  split; [rewrite Hrecord; vm_compute; reflexivity|].
  split; [exact Hpaths|].
  split; [rewrite Hprice; vm_compute; reflexivity|exact Hexact].
Defined.

Lemma renderCheckout_spec_witness :
  trace (exec renderCheckout
           (checkoutPage None (Some (singleItem "a" "Test kit" 10 250))))
  = [OrderSummaryHTML (Blocked NotLoggedIn); HideCheckoutForm]
  /\ trace (exec renderCheckout (checkoutPage (Some (Session.mk "buyer@oops.test")) None))
     = [OrderSummaryHTML (Blocked EmptyCart); HideCheckoutForm]
  /\ trace (exec renderCheckout
              (checkoutPage (Some (Session.mk "buyer@oops.test"))
                            (Some (singleItem "a" "Test kit" 10 3))))
     = [OrderSummaryHTML (Blocked BelowMinimum); HideCheckoutForm]
  /\ trace (exec renderCheckout shopWorld)
     = [OrderSummaryHTML
          (Ready [mkOrderLine (JSNumber.ofZ 60) "Test kit" (JSNumber.Digits "600.00")]
                 None (JSNumber.Digits "600.00"));
        ListenCheckoutSubmit]
  /\ trace (exec renderCheckout
              (checkoutPage (Some (Session.mk "buyer@oops.test")) (Some twoLines)))
     = [OrderSummaryHTML
          (Ready [mkOrderLine (JSNumber.ofZ 120) "Test kit" (JSNumber.Digits "1200.00");
                  mkOrderLine (JSNumber.ofZ 180) "Refill" (JSNumber.Digits "720.00")]
                 (Some (mkBreakdown (JSNumber.Digits "1920.00") (JSNumber.Digits "15")
                                    (JSNumber.Digits "288.00")))
                 (JSNumber.Digits "1632.00"));
        ListenCheckoutSubmit]
  /\ trace (exec renderCheckout
              (checkoutPage (Some (Session.mk "buyer@oops.test"))
                            (Some (singleItem "a" "Test kit" 10 250))))
     = [OrderSummaryHTML
          (Ready [mkOrderLine (JSNumber.ofZ 250) "Test kit" (JSNumber.Digits "2500.00")]
                 (Some (mkBreakdown (JSNumber.Digits "2500.00") (JSNumber.Digits "10")
                                    (JSNumber.Digits "250.00")))
                 (JSNumber.Digits "2250.00"));
        ListenCheckoutSubmit].
Proof.
  destruct renderCheckout_spec as (Hrender & _ & _ & Hsixty & Hbulk).
  split; [|split; [|split; [|split; [|split]]]].
  - pose proof (Hrender (checkoutPage None (Some (singleItem "a" "Test kit" 10 250)))
                  eq_refl eq_refl) as H.
    cbv zeta in H. destruct H as (_ & Hguest & _).
    apply Hguest. reflexivity.
  - pose proof (Hrender (checkoutPage (Some (Session.mk "buyer@oops.test")) None)
                  eq_refl eq_refl) as H.
    cbv zeta in H. destruct H as (_ & _ & Hempty & _).
    apply Hempty; reflexivity.
  - pose proof (Hrender (checkoutPage (Some (Session.mk "buyer@oops.test"))
                                      (Some (singleItem "a" "Test kit" 10 3)))
                  eq_refl eq_refl) as H.
    cbv zeta in H. destruct H as (_ & _ & _ & Hbelow & _).
    apply Hbelow.
    + reflexivity.
    + discriminate.
    + vm_compute. reflexivity.
  - apply (Hsixty "Test kit" shopWorld); reflexivity.
  - pose proof (Hrender (checkoutPage (Some (Session.mk "buyer@oops.test")) (Some twoLines))
                  eq_refl eq_refl) as H.
    cbv zeta in H. destruct H as (_ & _ & _ & _ & Hready & _).
    rewrite Hready.
    + vm_compute. reflexivity.
    + reflexivity.
    + discriminate.
    + vm_compute. reflexivity.
  - apply (Hbulk "Test kit"
             (checkoutPage (Some (Session.mk "buyer@oops.test"))
                           (Some (singleItem "a" "Test kit" 10 250))));
      reflexivity.
Defined.

Lemma registerUser_spec_witness :
  exec (registerUser buyer) shopWorld = shopWorld
  /\ oopsUsers (storage (exec (registerUser buyer) guestWorld)) = Some [buyer]
  /\ oopsSession (storage (exec (registerUser buyer) guestWorld))
     = Some (Session.mk "buyer@oops.test").
Proof.
  destruct (registerUser_spec buyer shopWorld) as [_ [Hrejected _]].
  destruct (registerUser_spec buyer guestWorld) as [_ [_ Haccepted]].
  split; [|split].
  - apply Hrejected. reflexivity.
  - apply (Haccepted buyer). reflexivity.
  - apply (Haccepted buyer). reflexivity.
Defined.

Lemma loginUser_spec_witness :
  result (loginUser "buyer@oops.test" "secret") loginPage = true
  /\ storage (exec (loginUser "buyer@oops.test" "secret") loginPage)
     = mkStore (Some (Session.mk "buyer@oops.test")) (Some [buyer]) None
  /\ result isLoggedIn (exec (loginUser "buyer@oops.test" "secret") loginPage) = true
  /\ exec (loginUser "buyer@oops.test" "secret") guestWorld = guestWorld
  /\ result (loginUser "x@x.com" "p") shopWorld = false
  /\ oopsSession (storage (exec (loginUser "x@x.com" "p") shopWorld))
     = Some (Session.mk "buyer@oops.test").
Proof.
  destruct loginUser_spec as (Hlogin & Habsent & Hscenario).
  pose proof (Hlogin "buyer@oops.test" "secret" loginPage) as Hbuyer.
  cbv zeta in Hbuyer. destruct Hbuyer as (Hiff & Haccepted & _).
  assert (Htrue : result (loginUser "buyer@oops.test" "secret") loginPage = true).
  { apply Hiff. exists [buyer], buyer.
    split; [reflexivity|]. split; [left; reflexivity|]. split; reflexivity. }
  destruct (Haccepted Htrue) as (Hstore & Hlogged & _).
  pose proof (Hlogin "buyer@oops.test" "secret" guestWorld) as Hguest.
  cbv zeta in Hguest. destruct Hguest as (_ & _ & Hrejected).
  assert (Hnobody : ~ exists users u,
             oopsUsers (storage shopWorld) = Some users
             /\ In u users /\ User.email u = "x@x.com" /\ User.password u = "p").
  { intros (users & u & Hdir & Hin & He & Hp).
    injection Hdir as <-. destruct Hin as [<-|[]]. discriminate. }
  destruct (Hscenario shopWorld Hnobody) as (Hno & Hsession).
  split; [exact Htrue|]. split; [exact Hstore|]. split; [exact Hlogged|].
  split; [|split; [exact Hno|exact Hsession]].
  apply Hrejected. apply (Habsent _ _ guestWorld). reflexivity.
Defined.

Lemma addToCart_guest_witness :
  oopsCart (storage (exec (addToCart (Product.mk "b" "Refill" (JSNumber.ofZ 4))) guestWorld))
  = oopsCart (storage guestWorld).
Proof.
  apply (addToCart_guest (Product.mk "b" "Refill" (JSNumber.ofZ 4)) guestWorld).
  reflexivity.
Defined.

Lemma cart_gate_witness :
  result isLoggedIn guestStock = false
  /\ oopsCart (storage (exec (addToCart (Product.mk "b" "Refill" (JSNumber.ofZ 4))) guestStock))
     = oopsCart (storage guestStock)
  /\ oopsCart (storage (exec (removeFromCart "b") guestStock))
     = Some [CartItem.mk "a" "Test kit" (JSNumber.ofZ 10) (JSNumber.ofZ 3);
             CartItem.mk "s" "Swab" (JSNumber.decimal 35 1) (JSNumber.ofZ 109)]
  /\ oopsCart (storage (exec (changeQuantity "b" (JSNumber.ofZ 1)) guestStock))
     = Some [CartItem.mk "a" "Test kit" (JSNumber.ofZ 10) (JSNumber.ofZ 3);
             CartItem.mk "b" "Refill" (JSNumber.ofZ 4) (JSNumber.ofZ 3);
             CartItem.mk "s" "Swab" (JSNumber.decimal 35 1) (JSNumber.ofZ 109)]
  /\ trace (exec renderCart guestStock) = [CartContainerHTML CartLoginRequired].
Proof.
  destruct cart_gate as (Hadd & Hremove & Hchange & _ & Hview).
  split; [reflexivity|]. split; [|split; [|split]].
  - apply (Hadd (Product.mk "b" "Refill" (JSNumber.ofZ 4)) guestStock). reflexivity.
  - rewrite (Hremove "b" guestStock); vm_compute; reflexivity.
  - rewrite (Hchange "b" (JSNumber.ofZ 1) guestStock
               [CartItem.mk "a" "Test kit" (JSNumber.ofZ 10) (JSNumber.ofZ 3)]
               [CartItem.mk "s" "Swab" (JSNumber.decimal 35 1) (JSNumber.ofZ 109)]
               (CartItem.mk "b" "Refill" (JSNumber.ofZ 4) (JSNumber.ofZ 2))).
    + vm_compute. reflexivity.
    + reflexivity.
    + intros [E|[]]. discriminate.
    + reflexivity.
    + vm_compute. reflexivity.
    + vm_compute. reflexivity.
  - apply (Hview guestStock); reflexivity.
Defined.


Lemma uniqueIds_invariant_witness :
  uniqueIds (result getCart stockWorld)
  /\ uniqueIds (result getCart
                  (exec (addToCart (Product.mk "b" "Refill" (JSNumber.ofZ 4))) stockWorld))
  /\ result getCart (exec (addToCart (Product.mk "b" "Refill" (JSNumber.ofZ 4))) stockWorld)
     = [CartItem.mk "a" "Test kit" (JSNumber.ofZ 10) (JSNumber.ofZ 3);
        CartItem.mk "b" "Refill" (JSNumber.ofZ 4) (JSNumber.ofZ 3);
        CartItem.mk "s" "Swab" (JSNumber.decimal 35 1) (JSNumber.ofZ 109)]
  /\ result getCart (exec (addToCart (Product.mk "b" "Refill" (JSNumber.ofZ 4))) shopWorld)
     = [CartItem.mk "a" "Test kit" (JSNumber.ofZ 10) (JSNumber.ofZ 60);
        CartItem.mk "b" "Refill" (JSNumber.ofZ 4) (JSNumber.ofZ 1)].
Proof.
  assert (Hu : uniqueIds (result getCart stockWorld)).
  { repeat constructor; cbn; intuition discriminate. }
  destruct uniqueIds_invariant as (Hinv & Hpush & Hraise).
  split; [exact Hu|]. split; [|split].
  - destruct (Hinv stockWorld Hu) as [Hadd _]. apply Hadd.
  - destruct (Hraise (Product.mk "b" "Refill" (JSNumber.ofZ 4)) stockWorld
                [CartItem.mk "a" "Test kit" (JSNumber.ofZ 10) (JSNumber.ofZ 3)]
                [CartItem.mk "s" "Swab" (JSNumber.decimal 35 1) (JSNumber.ofZ 109)]
                (CartItem.mk "b" "Refill" (JSNumber.ofZ 4) (JSNumber.ofZ 2)))
      as [_ Hwhole].
    + reflexivity.
    + vm_compute. reflexivity.
    + reflexivity.
    + intros [E|[]]. discriminate.
    + reflexivity.
    + apply (Hwhole 2); [reflexivity|lia].
  - rewrite (Hpush (Product.mk "b" "Refill" (JSNumber.ofZ 4)) shopWorld).
    + reflexivity.
    + reflexivity.
    + vm_compute. reflexivity.
    + vm_compute. reflexivity.
    + intros [E|[]]. discriminate.
Defined.

(** * Further properties of the script *)

(** ** What each service writes *)

Lemma storage_saveCart (cart : Cart) (w : World) :
  storage (exec (saveCart cart) w)
  = mkStore (oopsSession (storage w)) (oopsUsers (storage w)) (Some cart).
Proof. reflexivity. Qed.

Lemma storage_removeFromCart (id : string) (w : World) :
  storage (exec (removeFromCart id) w)
  = mkStore (oopsSession (storage w)) (oopsUsers (storage w))
            (Some (filter (fun item => negb (hasId id item)) (result getCart w))).
Proof.
  unfold removeFromCart.
  now rewrite !exec_bind, storage_renderCart, storage_updateCartCount, storage_saveCart.
Qed.

Lemma storage_changeQuantity (id : string) (delta : JSNumber.t) (w : World) :
  oopsSession (storage (exec (changeQuantity id delta) w)) = oopsSession (storage w)
  /\ oopsUsers (storage (exec (changeQuantity id delta) w)) = oopsUsers (storage w).
Proof.
  unfold changeQuantity. rewrite exec_bind.
  destruct (find _ _) as [item|].
  - now rewrite !exec_bind, storage_renderCart, storage_updateCartCount, storage_saveCart.
  - split; reflexivity.
Qed.

Lemma storage_addToCart (product : Product.t) (w : World) :
  oopsSession (storage (exec (addToCart product) w)) = oopsSession (storage w)
  /\ oopsUsers (storage (exec (addToCart product) w)) = oopsUsers (storage w).
Proof.
  destruct w as [[session users cart] pg tr]; run.
  destruct session; cbn; [|split; reflexivity].
  destruct (find _ _); split; reflexivity.
Qed.

Lemma storage_registerUser (details : User.t) (w : World) :
  oopsCart (storage (exec (registerUser details) w)) = oopsCart (storage w).
Proof.
  destruct w as [[session users cart] pg tr]; run.
  destruct (_ || _); [reflexivity|].
  destruct (find _ _); reflexivity.
Qed.

Lemma storage_loginUser (email password : string) (w : World) :
  oopsCart (storage (exec (loginUser email password) w)) = oopsCart (storage w)
  /\ oopsUsers (storage (exec (loginUser email password) w)) = oopsUsers (storage w).
Proof.
  destruct w as [[session users cart] pg tr]; run.
  destruct (find _ _); split; reflexivity.
Qed.

(** X4. The cart services, the checkout submission and the four view
    functions never write the session or the user directory, and the view
    functions write nothing at all; registration, login and [logoutUser]
    never write the cart, and login and [logoutUser] never write the user
    directory.  (The cart is emptied on logout by the link's listener, not
    by [logoutUser].) *)
Theorem services_frame (w : World) :
  (forall product,
      oopsSession (storage (exec (addToCart product) w)) = oopsSession (storage w)
      /\ oopsUsers (storage (exec (addToCart product) w)) = oopsUsers (storage w))
  /\ (forall id,
        oopsSession (storage (exec (removeFromCart id) w)) = oopsSession (storage w)
        /\ oopsUsers (storage (exec (removeFromCart id) w)) = oopsUsers (storage w))
  /\ (forall id delta,
        oopsSession (storage (exec (changeQuantity id delta) w)) = oopsSession (storage w)
        /\ oopsUsers (storage (exec (changeQuantity id delta) w)) = oopsUsers (storage w))
  /\ (oopsSession (storage (exec checkoutSubmit w)) = oopsSession (storage w)
      /\ oopsUsers (storage (exec checkoutSubmit w)) = oopsUsers (storage w))
  /\ (storage (exec renderCart w) = storage w
      /\ storage (exec renderCheckout w) = storage w
      /\ storage (exec updateCartCount w) = storage w
      /\ storage (exec updatePricingVisibility w) = storage w)
  /\ (forall details,
        oopsCart (storage (exec (registerUser details) w)) = oopsCart (storage w))
  /\ (forall email password,
        oopsCart (storage (exec (loginUser email password) w)) = oopsCart (storage w)
        /\ oopsUsers (storage (exec (loginUser email password) w)) = oopsUsers (storage w))
  /\ (oopsCart (storage (exec logoutUser w)) = oopsCart (storage w)
      /\ oopsUsers (storage (exec logoutUser w)) = oopsUsers (storage w)).
Proof.
  split; [intro product; apply storage_addToCart|].
  split; [intro id; now rewrite storage_removeFromCart|].
  split; [intros id delta; apply storage_changeQuantity|].
  split; [split; reflexivity|].
  split.
  { split; [apply storage_renderCart|].
    split; [apply storage_renderCheckout|].
    split; reflexivity. }
  split; [intro details; apply storage_registerUser|].
  split; [intros email password; apply storage_loginUser|].
  split; reflexivity.
Qed.

(** ** Removing a line *)

Lemma filter_idem {A} (f : A -> bool) (l : list A) :
  filter f (filter f l) = filter f l.
Proof. apply forallb_filter_id, forallb_filter. Qed.

Lemma filter_hasId_absent (id : string) (cart : Cart) :
  ~ In id (map CartItem.id cart) ->
  filter (fun item => negb (hasId id item)) cart = cart.
Proof.
  intro Hno. apply forallb_filter_id, forallb_forall.
  intros item Hin. unfold hasId.
  destruct (String.eqb_spec (CartItem.id item) id) as [E|N]; [|reflexivity].
  exfalso. apply Hno. rewrite <- E. now apply in_map.
Qed.

Lemma jsonCart_filter (keep : CartItem.t -> bool) (cart : Cart) :
  jsonCart cart = true -> jsonCart (filter keep cart) = true.
Proof.
  unfold jsonCart.
  induction cart as [|item cart IH]; cbn [filter forallb]; [reflexivity|].
  intro H. apply andb_true_iff in H as [Hitem Hrest].
  destruct (keep item); cbn [forallb]; auto.
  now rewrite Hitem, IH.
Qed.

(** X1. [removeFromCart] leaves exactly the items with another id, in
    their order: the cart it writes is the old one filtered, no item with
    the id is left, and it writes the cart record even when nothing
    matched (an absent record becomes [[]]).  Removing an id the cart
    does not hold, or removing the same id again, leaves the contents as
    they are.  The count shown afterwards is the sum over the items that
    are left.  Stated for a cart of numbers that JSON carries. *)
Theorem removeFromCart_spec (id : string) (w : World) :
  jsonCart (result getCart w) = true ->
  let cart := result getCart w in
  let w' := exec (removeFromCart id) w in
  let cart' := result getCart w' in
  cart' = filter (fun item => negb (String.eqb (CartItem.id item) id)) cart
  /\ jsonCart cart' = true
  /\ ~ In id (map CartItem.id cart')
  /\ (forall item, In item cart' <-> In item cart /\ CartItem.id item <> id)
  /\ oopsCart (storage w') = Some cart'
  /\ (~ In id (map CartItem.id cart) -> cart' = cart)
  /\ result getCart (exec (removeFromCart id) w') = cart'
  /\ exists view, trace w' = trace w ++ CartCountText (sumQuantity cart') :: view.
Proof.
  intros Hjson cart w' cart'; subst cart w' cart'.
  rewrite !getCart_removeFromCart, filter_idem.
  split; [reflexivity|].
  split; [now apply jsonCart_filter|].
  split; [|split; [|split; [|split; [|split]]]].
  - intro Hin. apply in_map_iff in Hin as (item & Hid & Hin).
    apply filter_In in Hin as [_ Hkeep].
    unfold hasId in Hkeep. rewrite Hid, String.eqb_refl in Hkeep. discriminate.
  - intro item. rewrite filter_In. unfold hasId.
    destruct (String.eqb_spec (CartItem.id item) id); cbn [negb];
      intuition (congruence || discriminate).
  - now rewrite storage_removeFromCart.
  - apply filter_hasId_absent.
  - reflexivity.
  - destruct w as [[session users cart] pg tr]; run.
    destruct (cartContainer pg), session; cbn;
      try (destruct (_ =? _)%nat; cbn);
      rewrite <- ?app_assoc; eexists; reflexivity.
Qed.

(** ** Registration, login and logout *)

Lemma find_email_absent (email : string) (users : list User.t) :
  find (fun u => String.eqb (User.email u) email) users = None
  <-> ~ In email (map User.email users).
Proof.
  rewrite find_email_none. split.
  - intros Hno Hin. apply in_map_iff in Hin as (u & He & Hin). apply Hno; eauto.
  - intros Hno (u & Hin & He). apply Hno. rewrite <- He. now apply in_map.
Qed.

(** The two ways [registerUser] ends. *)
Lemma registerUser_outcome (details : User.t) (w : World) :
  (result (registerUser details) w = None /\ exec (registerUser details) w = w)
  \/ (result (registerUser details) w = Some details
      /\ storage (exec (registerUser details) w)
         = mkStore (Some (Session.mk (User.email details)))
                   (Some (result getUsers w ++ [details]))
                   (oopsCart (storage w))
      /\ ~ In (User.email details) (map User.email (result getUsers w))
      /\ User.email details <> "" /\ User.password details <> "").
Proof.
  destruct details as [email phone company password].
  destruct w as [[session users cart] pg tr]; run;
    cbn [User.email User.phone User.company User.password].
  destruct (falsy email) eqn:He; cbn [orb]; [now left|].
  destruct (falsy phone) eqn:Hp; cbn [orb]; [now left|].
  destruct (falsy company) eqn:Hc; cbn [orb]; [now left|].
  destruct (falsy password) eqn:Hw; cbn [orb]; [now left|].
  destruct (find _ _) as [u|] eqn:Hfind; [now left|].
  right. apply find_email_absent in Hfind.
  repeat split; trivial.
  - intro E. apply falsy_empty in E. congruence.
  - intro E. apply falsy_empty in E. congruence.
Qed.

(** X2. Right after an accepted registration the new credentials log in;
    the same email with any other password is rejected; and a second
    registration under that email, whatever its other fields, is
    rejected. *)
Theorem register_then_login (details : User.t) (w : World) (newUser : User.t) :
  result (registerUser details) w = Some newUser ->
  let w' := exec (registerUser details) w in
  result (loginUser (User.email details) (User.password details)) w' = true
  /\ (forall password,
        password <> User.password details ->
        result (loginUser (User.email details) password) w' = false)
  /\ (forall again,
        User.email again = User.email details ->
        result (registerUser again) w' = None).
Proof.
  intros Hok w'; subst w'.
  destruct (registerUser_outcome details w)
    as [[Hnone _]|(_ & Hstore & Hfresh & Hemail & Hpassword)]; [congruence|].
  set (w' := exec (registerUser details) w) in *.
  assert (Husers : result getUsers w' = result getUsers w ++ [details]).
  { unfold result, getUsers, readStore; cbn [fst]. now rewrite Hstore. }
  split; [|split].
  - destruct (find_credentials (User.email details) (User.password details)
                (result getUsers w')) as [_ Hfind].
    destruct Hfind as [u Hu].
    { exists details. rewrite Husers, in_app_iff. simpl. auto. }
    unfold result, loginUser, bind. fold (result getUsers w').
    unfold result in Hu |- *.
    destruct (getUsers w') as [users w''] eqn:Hget. cbn [fst] in Hu.
    now rewrite Hu.
  - intros password Hother.
    destruct (result (loginUser (User.email details) password) w') eqn:Hres;
      [exfalso|reflexivity].
    assert (Hex : exists u, In u (result getUsers w')
                            /\ User.email u = User.email details
                            /\ User.password u = password).
    { apply find_credentials.
      unfold result, loginUser, bind in Hres.
      unfold result. destruct (getUsers w') as [users w''] eqn:Hget. cbn [fst].
      destruct (find _ users) as [u|]; [eauto|discriminate]. }
    destruct Hex as (u & Hin & He & Hp).
    rewrite Husers, in_app_iff in Hin. destruct Hin as [Hin|[<-|[]]].
    + apply Hfresh. rewrite <- He. now apply in_map.
    + congruence.
  - intros again Hsame.
    destruct (registerUser_outcome again w')
      as [[Hnone _]|(_ & _ & Hfresh' & _)]; [exact Hnone|exfalso].
    apply Hfresh'. rewrite Husers, map_app, in_app_iff, Hsame. simpl. auto.
Qed.

(** X3. The directory only grows, by at most one user at its end, and a
    directory whose emails are pairwise distinct stays so under
    [registerUser]. *)
Theorem registerUser_directory (details : User.t) (w : World) :
  let users := result getUsers w in
  let users' := result getUsers (exec (registerUser details) w) in
  (users' = users \/ users' = users ++ [details])
  /\ (uniqueEmails users -> uniqueEmails users').
Proof.
  intros users users'; subst users users'.
  destruct (registerUser_outcome details w)
    as [[_ ->]|(_ & Hstore & Hfresh & _)].
  - split; [now left|trivial].
  - assert (Husers : result getUsers (exec (registerUser details) w)
                     = result getUsers w ++ [details]).
    { unfold result at 1, getUsers at 1, readStore; cbn [fst]. now rewrite Hstore. }
    rewrite Husers. split; [now right|].
    unfold uniqueEmails. intro Hu.
    rewrite map_app. apply NoDup_app; simpl; auto.
    + constructor; [tauto|constructor].
    + intros a Ha [<-|[]]. contradiction.
Qed.

(** X5. A click on the "Logout" link leaves no session and an empty cart,
    keeps the user directory, shows a count of 0, hides the prices and
    goes to the home page: nobody is logged in afterwards, and a login by
    the same user finds an empty cart. *)
Theorem logoutClick_spec (w : World) :
  let w' := exec logoutClick w in
  storage w' = mkStore None (oopsUsers (storage w)) (Some [])
  /\ result isLoggedIn w' = false
  /\ trace w' = trace w ++ [CartCountText (JSNumber.ofZ 0);
                            PricingVisibility false;
                            Navigate "index.html"]
  /\ forall email password,
       result getCart (exec (loginUser email password) w') = [].
Proof.
  destruct w as [[session users cart] pg tr]; run. cbn.
  rewrite <- !app_assoc.
  repeat split.
  intros email password. destruct (find _ _); reflexivity.
Qed.

Lemma trace_renderCheckout_empty (w : World) :
  orderSummary (page w) = true -> checkoutForm (page w) = true ->
  result isLoggedIn w = true -> result getCart w = [] ->
  trace (exec renderCheckout w) = trace w ++ blockedBy EmptyCart.
Proof.
  intros Hs Hf Hl Hc.
  now rewrite (renderCheckout_cases w Hs Hf), Hl, Hc.
Qed.

(** X6. Submitting the order thanks the user, saves the empty cart, shows
    a count of 0 and goes to the home page; the session and the user
    directory stay, so the user remains logged in, and a checkout page
    rendered afterwards is blocked for an empty cart. *)
Theorem checkoutSubmit_spec (w : World) :
  let w' := exec checkoutSubmit w in
  storage w' = mkStore (oopsSession (storage w)) (oopsUsers (storage w)) (Some [])
  /\ result isLoggedIn w' = result isLoggedIn w
  /\ trace w' = trace w ++ [Alert "Thank you for your purchase! Your order has been placed.";
                            CartCountText (JSNumber.ofZ 0);
                            Navigate "index.html"]
  /\ (orderSummary (page w) = true -> checkoutForm (page w) = true ->
      result isLoggedIn w = true ->
      trace (exec renderCheckout w') = trace w' ++ blockedBy EmptyCart).
Proof.
  intro w'.
  assert (Hstore : storage w'
                   = mkStore (oopsSession (storage w)) (oopsUsers (storage w)) (Some []))
    by reflexivity.
  split; [exact Hstore|]. split; [reflexivity|]. split.
  - destruct w as [[session users cart] pg tr]; subst w'; run. cbn.
    now rewrite <- !app_assoc.
  - intros Hs Hf Hl. apply trace_renderCheckout_empty; trivial.
Qed.

(** ** Whole quantities under the cart services *)

Lemma totalOf_app (qs rs : list Z) : totalOf (qs ++ rs) = totalOf qs + totalOf rs.
Proof.
  induction qs as [|q qs IH]; cbn [app totalOf fold_right].
  - reflexivity.
  - fold (totalOf (qs ++ rs)) (totalOf qs). lia.
Qed.


Lemma trace_addToCart (product : Product.t) (w : World) :
  result isLoggedIn w = true ->
  trace (exec (addToCart product) w)
  = trace w ++ [CartCountText (sumQuantity (result getCart (exec (addToCart product) w)));
                Alert (Product.name product ++ " has been added to your cart.")%string].
Proof.
  destruct w as [[session users cart] pg tr]; run.
  destruct session; [intros _|discriminate]. cbn.
  destruct (find _ _); cbn; now rewrite <- app_assoc.
Qed.

(** The cart after a logged-in [addToCart] has the whole quantities of
    before, one of them raised by 1 or a 1 added at the end. *)
Lemma addToCart_whole (product : Product.t) (w : World) (qs : list Z) :
  result isLoggedIn w = true ->
  wholeQuantities (result getCart w) qs ->
  totalOf qs + 1 < 2 ^ 53 ->
  exists qs',
    wholeQuantities (result getCart (exec (addToCart product) w)) qs'
    /\ totalOf qs' = totalOf qs + 1.
Proof.
  intros Hlogged (Hqs & Hnonneg & Htotal) Hroom.
  rewrite getCart_addToCart, Hlogged.
  destruct (find _ _) as [existing|] eqn:Hfind.
  - destruct (find_some_split _ _ _ Hfind)
      as (before & after & Hcart & Hitem & Hbefore).
    rewrite Hcart in Hqs |- *.
    rewrite map_app in Hqs. cbn [map] in Hqs. symmetry in Hqs.
    apply map_eq_app in Hqs as (qb & qr & -> & Hqb & Hqr).
    apply map_eq_cons in Hqr as (q & qa & -> & Hq & Hqa).
    rewrite totalOf_app in *. cbn [totalOf fold_right] in *. fold (totalOf qa) in *.
    apply Forall_app in Hnonneg as [Hnb Hnr].
    apply Forall_cons_iff in Hnr as [Hnq Hna].
    pose proof (totalOf_nonneg qb Hnb). pose proof (totalOf_nonneg qa Hna).
    exists (qb ++ (q + 1) :: qa).
    rewrite (assignFound_split _ _ _ _ _ Hbefore Hitem).
    split; [split; [|split]|].
    + rewrite !map_app. cbn [map CartItem.setQuantity CartItem.quantity].
      rewrite <- Hq, ofZ_add by (change (2 ^ 53) with 9007199254740992 in *; lia).
      now rewrite Hqb, Hqa.
    + apply Forall_app. split; [assumption|].
      constructor; [lia|assumption].
    + rewrite totalOf_app. cbn [totalOf fold_right]. fold (totalOf qa). lia.
    + rewrite totalOf_app. cbn [totalOf fold_right]. fold (totalOf qa). lia.
  - exists (qs ++ [1]).
    split; [split; [|split]|].
    + rewrite !map_app, Hqs. reflexivity.
    + apply Forall_app. split; [assumption|]. constructor; [lia|constructor].
    + rewrite totalOf_app. cbn [totalOf fold_right]. lia.
    + rewrite totalOf_app. cbn [totalOf fold_right]. lia.
Qed.

(** X7. For a logged-in user and whole quantities, every [addToCart]
    raises the total quantity by exactly 1, whether the product was in the
    cart or not; the new total is the count it shows, followed by the
    confirmation that names the product. *)
Theorem addToCart_count (product : Product.t) (w : World) (qs : list Z) :
  result isLoggedIn w = true ->
  wholeQuantities (result getCart w) qs ->
  totalOf qs + 1 < 2 ^ 53 ->
  let w' := exec (addToCart product) w in
  sumQuantity (result getCart w') = JSNumber.ofZ (totalOf qs + 1)
  /\ trace w'
     = trace w ++ [CartCountText (JSNumber.ofZ (totalOf qs + 1));
                   Alert (Product.name product ++ " has been added to your cart.")%string].
Proof.
  intros Hlogged Hwhole Hroom w'; subst w'.
  destruct (addToCart_whole product w qs Hlogged Hwhole Hroom) as (qs' & Hwhole' & Htotal).
  rewrite (trace_addToCart product w Hlogged).
  rewrite (sumQuantity_whole _ qs' Hwhole'), Htotal.
  split; reflexivity.
Qed.

Lemma wholeCart_mono (b b' : Z) (cart : Cart) :
  b <= b' -> wholeCart b cart -> wholeCart b' cart.
Proof.
  intros Hb. apply Forall_impl.
  intros item (q & Hq & Hrange). exists q. split; [assumption|lia].
Qed.

Lemma wholeCart_middle (b : Z) (before after : Cart) (item : CartItem.t) :
  wholeCart b (before ++ item :: after)
  <-> wholeCart b before /\ wholeItem b item /\ wholeCart b after.
Proof.
  unfold wholeCart. rewrite Forall_app, Forall_cons_iff. tauto.
Qed.

Lemma wholeCart_changeQuantity (bound b' d : Z) (id : string) (w : World) :
  1 <= bound -> bound + 1 < 2 ^ 53 ->
  Z.abs d <= 1 -> bound <= b' -> bound + d <= b' ->
  wholeCart bound (result getCart w) ->
  wholeCart b' (result getCart (exec (changeQuantity id (JSNumber.ofZ d)) w)).
Proof.
  intros Hbound Hroom Hd Hb Hbd Hwhole.
  change (2 ^ 53) with 9007199254740992 in Hroom.
  rewrite getCart_changeQuantity.
  destruct (find _ _) as [item|] eqn:Hfind; [|now apply (wholeCart_mono bound)].
  destruct (find_some_split _ _ _ Hfind)
    as (before & after & Hcart & Hitem & Hbefore).
  rewrite Hcart in Hwhole |- *.
  rewrite (assignFound_split _ _ _ _ _ Hbefore Hitem).
  apply wholeCart_middle in Hwhole as (Hb1 & (q & Hq & Hrange) & Ha).
  apply wholeCart_middle.
  split; [now apply (wholeCart_mono bound)|].
  split; [|now apply (wholeCart_mono bound)].
  exists (Z.max 1 (q + d)).
  cbn [CartItem.setQuantity CartItem.quantity].
  rewrite Hq, ofZ_add, max_ofZ
    by (trivial; change (2 ^ 53) with 9007199254740992; lia).
  split; [reflexivity|lia].
Qed.

Lemma wholeCart_addToCart (bound : Z) (product : Product.t) (w : World) :
  1 <= bound -> bound + 1 < 2 ^ 53 ->
  wholeCart bound (result getCart w) ->
  wholeCart (bound + 1) (result getCart (exec (addToCart product) w)).
Proof.
  intros Hbound Hroom Hwhole.
  change (2 ^ 53) with 9007199254740992 in Hroom.
  rewrite getCart_addToCart.
  destruct (result isLoggedIn w); [|now apply (wholeCart_mono bound); [lia|]].
  destruct (find _ _) as [existing|] eqn:Hfind.
  - destruct (find_some_split _ _ _ Hfind)
      as (before & after & Hcart & Hitem & Hbefore).
    rewrite Hcart in Hwhole |- *.
    rewrite (assignFound_split _ _ _ _ _ Hbefore Hitem).
    apply wholeCart_middle in Hwhole as (Hb1 & (q & Hq & Hrange) & Ha).
    apply wholeCart_middle.
    split; [apply (wholeCart_mono bound); trivial; lia|].
    split; [|apply (wholeCart_mono bound); trivial; lia].
    exists (q + 1).
    cbn [CartItem.setQuantity CartItem.quantity].
    rewrite Hq, ofZ_add by (change (2 ^ 53) with 9007199254740992; lia).
    split; [reflexivity|lia].
  - apply Forall_app. split; [apply (wholeCart_mono bound); trivial; lia|].
    constructor; [|constructor].
    exists 1. split; [reflexivity|lia].
Qed.

Lemma wholeCart_removeFromCart (bound : Z) (id : string) (w : World) :
  wholeCart bound (result getCart w) ->
  wholeCart bound (result getCart (exec (removeFromCart id) w)).
Proof.
  rewrite getCart_removeFromCart.
  unfold wholeCart. rewrite !Forall_forall.
  intros Hwhole item Hin. apply filter_In in Hin as [Hin _]. auto.
Qed.

(** X8. Whole quantities from 1 up stay whole and from 1 up: when every
    quantity of the cart is a whole number between 1 and [bound], then
    after [addToCart] (logged in or not) and after an increase by 1 every
    quantity is a whole number between 1 and [bound + 1], and after a
    decrease by 1 or a removal between 1 and [bound]. *)
Theorem wholeCart_invariant (bound : Z) (w : World) :
  1 <= bound -> bound + 1 < 2 ^ 53 ->
  wholeCart bound (result getCart w) ->
  (forall product,
      wholeCart (bound + 1) (result getCart (exec (addToCart product) w)))
  /\ (forall id,
        wholeCart (bound + 1)
          (result getCart (exec (changeQuantity id (JSNumber.ofZ 1)) w)))
  /\ (forall id,
        wholeCart bound
          (result getCart (exec (changeQuantity id (JSNumber.ofZ (-1))) w)))
  /\ (forall id,
        wholeCart bound (result getCart (exec (removeFromCart id) w))).
Proof.
  intros Hbound Hroom Hwhole.
  split; [|split; [|split]].
  - intro product. now apply wholeCart_addToCart.
  - intro id. apply (wholeCart_changeQuantity bound); trivial; lia.
  - intro id. apply (wholeCart_changeQuantity bound); trivial; lia.
  - intro id. now apply wholeCart_removeFromCart.
Qed.


(** ** The views *)

Lemma skipn_length_app {A} (l r : list A) : skipn (List.length l) (l ++ r) = r.
Proof. induction l as [|x l IH]; simpl; auto. Qed.

Lemma rendered_app {A} (m : M A) (w : World) (out : list Effect) :
  trace (exec m w) = trace w ++ out -> rendered m w = out.
Proof. unfold rendered. intros ->. apply skipn_length_app. Qed.

(** What [renderCart] writes, as a function of the store and the page. *)
Lemma trace_renderCart (w : World) :
  trace (exec renderCart w)
  = trace w ++
    (if negb (cartContainer (page w)) then []
     else if negb (result isLoggedIn w) then [CartContainerHTML CartLoginRequired]
     else match result getCart w with
          | [] => [CartContainerHTML CartEmpty]
          | _ :: _ => [CartContainerHTML (cartTable (result getCart w))]
          end).
Proof.
  destruct w as [[session users cart] pg tr]; run.
  destruct (cartContainer pg); cbn; [|now rewrite app_nil_r].
  destruct session; cbn; [|reflexivity].
  destruct (match cart with Some c => c | None => [] end); reflexivity.
Qed.

Lemma trace_renderCheckout (w : World) :
  trace (exec renderCheckout w)
  = trace w ++
    (if negb (orderSummary (page w)) || negb (checkoutForm (page w)) then []
     else if negb (result isLoggedIn w) then blockedBy NotLoggedIn
     else match result getCart w with
          | [] => blockedBy EmptyCart
          | _ :: _ =>
              if JSNumber.lt (sumQuantity (result getCart w)) (JSNumber.ofZ 50)
              then blockedBy BelowMinimum
              else readyWith (result getCart w)
          end).
Proof.
  destruct (negb (orderSummary (page w)) || negb (checkoutForm (page w))) eqn:Hpage.
  - destruct w as [[session users cart] pg tr]; run. cbn in Hpage.
    rewrite Hpage. cbn. now rewrite app_nil_r.
  - apply orb_false_iff in Hpage as [Hs Hf].
    apply negb_false_iff in Hs, Hf.
    now apply renderCheckout_cases.
Qed.

(** X11. For a logged-in user with a non-empty cart, the cart page and the
    checkout page agree on the minimum order: the cart page offers the
    live "Proceed to Checkout" link exactly when the checkout page, on the
    same store, shows the order; when the link is disabled the checkout
    page is blocked for being below the minimum. *)
Theorem checkout_link_agrees (w1 w2 : World) :
  storage w2 = storage w1 ->
  cartContainer (page w1) = true ->
  orderSummary (page w2) = true -> checkoutForm (page w2) = true ->
  result isLoggedIn w1 = true ->
  result getCart w1 <> [] ->
  exists rows summary,
    rendered renderCart w1 = [CartContainerHTML (CartTable rows summary)]
    /\ (checkoutLinkEnabled summary = true ->
        rendered renderCheckout w2 = readyWith (result getCart w1))
    /\ (checkoutLinkEnabled summary = false ->
        rendered renderCheckout w2 = blockedBy BelowMinimum).
Proof.
  intros Hs Hc Ho Hf Hl Hne.
  assert (Hl2 : result isLoggedIn w2 = true).
  { revert Hl. unfold result, isLoggedIn, getSession, readStore, bind, ret; cbn [fst].
    now rewrite Hs. }
  assert (Hc2 : result getCart w2 = result getCart w1).
  { unfold result, getCart, readStore; cbn [fst]. now rewrite Hs. }
  rewrite (rendered_app _ _ _ (trace_renderCart w1)),
          (rendered_app _ _ _ (trace_renderCheckout w2)).
  rewrite Hc, Ho, Hf, Hl, Hl2, Hc2. cbn [negb orb].
  destruct (result getCart w1) as [|item rest] eqn:Hcart; [congruence|].
  eexists _, _. split; [reflexivity|].
  cbn [checkoutLinkEnabled].
  change (totalQuantity (renderCart_pricing (item :: rest)))
    with (sumQuantity (item :: rest)).
  destruct (JSNumber.lt _ _); cbn [negb]; split; congruence.
Qed.

(** ** Pricing on whole totals *)

Lemma discountRate_whole (cart : Cart) (qs : list Z) :
  wholeQuantities cart qs ->
  discountRate (renderCart_pricing cart) = stepRate (totalOf qs).
Proof.
  intro Hwhole.
  assert (Hrate : discountRate (renderCart_pricing cart) = tierRate (sumQuantity cart)).
  { unfold renderCart_pricing; cbn [discountRate]. now rewrite tierRate_chain. }
  rewrite Hrate, (sumQuantity_whole cart qs Hwhole).
  destruct Hwhole as (_ & Hnonneg & Hsum).
  pose proof (totalOf_nonneg qs Hnonneg).
  apply tierRate_whole. lia.
Qed.

(** X12. A cart of whole quantities with a total below 100 is billed at
    full price in both views: the rate is 0, no discount lines are shown,
    and, the subtotal being finite, the grand total equals the subtotal
    and is printed as the subtotal is. *)
Theorem full_price_below_first_tier (cart : Cart) (qs : list Z) :
  wholeQuantities cart qs ->
  totalOf qs < 100 ->
  isFinite (subtotal (renderCart_pricing cart)) = true ->
  let p := renderCart_pricing cart in
  renderCheckout_pricing cart = p
  /\ discountRate p = JSNumber.ofZ 0
  /\ breakdownOf (subtotal p) (discountRate p) (discountAmount p) = None
  /\ SFeqb (grandTotal p) (subtotal p) = true
  /\ grandTotalText p = JSNumber.toFixed 2 (subtotal p).
Proof.
  intros Hwhole Hlow Hfinite p.
  split; [symmetry; apply renderCart_pricing_eq|].
  assert (Hrate : discountRate p = JSNumber.ofZ 0).
  { unfold p. rewrite (discountRate_whole cart qs Hwhole). unfold stepRate.
    destruct (Z.leb_spec 500 (totalOf qs)); [lia|].
    destruct (Z.leb_spec 300 (totalOf qs)); [lia|].
    destruct (Z.leb_spec 200 (totalOf qs)); [lia|].
    destruct (Z.leb_spec 100 (totalOf qs)); [lia|].
    vm_compute. reflexivity. }
  split; [exact Hrate|].
  assert (Hamount : discountAmount p = JSNumber.mul (subtotal p) (discountRate p))
    by reflexivity.
  assert (Htotal : grandTotal p = JSNumber.sub (subtotal p) (discountAmount p))
    by reflexivity.
  assert (Htext : grandTotalText p = JSNumber.toFixed 2 (grandTotal p))
    by reflexivity.
  rewrite Htext, Htotal, Hamount, Hrate.
  fold p in Hfinite.
  change (JSNumber.ofZ 0) with (S754_zero false).
  destruct (subtotal p) as [s| | |s m e]; try discriminate;
    unfold breakdownOf, JSNumber.mul, JSNumber.sub; cbn [SFmul SFsub xorb].
  - destruct s; repeat split.
  - repeat split. unfold SFeqb. cbn [SFcompare].
    destruct s; now rewrite Z.compare_refl, Pos.compare_cont_refl.
Qed.

Lemma tier_labels :
  (JSNumber.gt (JSNumber.decimal 20 2) (JSNumber.ofZ 0) = true
   /\ JSNumber.toFixed 0 (JSNumber.mul (JSNumber.decimal 20 2) (JSNumber.ofZ 100))
      = JSNumber.Digits "20")
  /\ (JSNumber.gt (JSNumber.decimal 15 2) (JSNumber.ofZ 0) = true
      /\ JSNumber.toFixed 0 (JSNumber.mul (JSNumber.decimal 15 2) (JSNumber.ofZ 100))
         = JSNumber.Digits "15")
  /\ (JSNumber.gt (JSNumber.decimal 10 2) (JSNumber.ofZ 0) = true
      /\ JSNumber.toFixed 0 (JSNumber.mul (JSNumber.decimal 10 2) (JSNumber.ofZ 100))
         = JSNumber.Digits "10")
  /\ (JSNumber.gt (JSNumber.decimal 5 2) (JSNumber.ofZ 0) = true
      /\ JSNumber.toFixed 0 (JSNumber.mul (JSNumber.decimal 5 2) (JSNumber.ofZ 100))
         = JSNumber.Digits "5").
Proof.
  split; [split; vm_compute; reflexivity|].
  split; [split; vm_compute; reflexivity|].
  split; split; vm_compute; reflexivity.
Qed.

(** X13. A cart of whole quantities with a total of 100 or more shows the
    discount lines in both views: the subtotal, the discount amount, and
    a percentage that reads 5 from 100, 10 from 200, 15 from 300 and 20
    from 500. *)
Theorem breakdown_labels (cart : Cart) (qs : list Z) :
  wholeQuantities cart qs ->
  100 <= totalOf qs ->
  let p := renderCart_pricing cart in
  renderCheckout_pricing cart = p
  /\ breakdownOf (subtotal p) (discountRate p) (discountAmount p)
     = Some (mkBreakdown (JSNumber.toFixed 2 (subtotal p))
                         (JSNumber.Digits (percentLabel (totalOf qs)))
                         (JSNumber.toFixed 2 (discountAmount p))).
Proof.
  intros Hwhole Hhigh p.
  split; [symmetry; apply renderCart_pricing_eq|].
  unfold p. rewrite (discountRate_whole cart qs Hwhole).
  destruct tier_labels as ((G20 & L20) & (G15 & L15) & (G10 & L10) & (G5 & L5)).
  unfold stepRate, percentLabel, breakdownOf.
  destruct (500 <=? totalOf qs); [now rewrite G20, L20|].
  destruct (300 <=? totalOf qs); [now rewrite G15, L15|].
  destruct (200 <=? totalOf qs); [now rewrite G10, L10|].
  destruct (Z.leb_spec 100 (totalOf qs)); [now rewrite G5, L5|lia].
Qed.

Lemma stepRate_mono (a b : Z) :
  a <= b ->
  JSNumber.ge (stepRate b) (stepRate a) = true
  /\ JSNumber.ge (stepRate a) (JSNumber.ofZ 0) = true
  /\ JSNumber.ge (JSNumber.decimal 20 2) (stepRate a) = true.
Proof.
  intro Hab. unfold stepRate.
  destruct (Z.leb_spec 500 a), (Z.leb_spec 300 a), (Z.leb_spec 200 a),
    (Z.leb_spec 100 a), (Z.leb_spec 500 b), (Z.leb_spec 300 b),
    (Z.leb_spec 200 b), (Z.leb_spec 100 b);
    try lia; (split; [|split]); vm_compute; reflexivity.
Qed.

(** X15. On whole quantities the discount rate never falls when the total
    grows, and it always lies between 0 and 0.20. *)
Theorem discountRate_monotone (cart1 cart2 : Cart) (qs1 qs2 : list Z) :
  wholeQuantities cart1 qs1 ->
  wholeQuantities cart2 qs2 ->
  totalOf qs1 <= totalOf qs2 ->
  JSNumber.ge (discountRate (renderCart_pricing cart2))
              (discountRate (renderCart_pricing cart1)) = true
  /\ JSNumber.ge (discountRate (renderCart_pricing cart1)) (JSNumber.ofZ 0) = true
  /\ JSNumber.ge (JSNumber.decimal 20 2) (discountRate (renderCart_pricing cart1)) = true.
Proof.
  intros H1 H2 Hle.
  rewrite (discountRate_whole cart1 qs1 H1), (discountRate_whole cart2 qs2 H2).
  now apply stepRate_mono.
Qed.

(** ** The lines of the two views *)

(** X14. The order summary has exactly one line per cart item, in cart
    order, each with the item's quantity, its name and price times
    quantity printed with two decimals; the cart table has one row per
    item, in the same order, under the same ids. *)
Theorem view_lines (cart : Cart) :
  (exists breakdown total,
      orderSummaryOf cart = Ready (map orderLine cart) breakdown total)
  /\ (exists rows summary,
        cartTable cart = CartTable rows summary
        /\ map row_id rows = map CartItem.id cart
        /\ map row_name rows = map line_name (map orderLine cart)
        /\ map row_quantity rows = map line_quantity (map orderLine cart)
        /\ map row_total rows = map line_total (map orderLine cart)).
Proof.
  split.
  - unfold orderSummaryOf, orderLines.
    rewrite orderLines_lines. eexists _, _. reflexivity.
  - unfold cartTable. eexists _, _. split; [reflexivity|].
    rewrite !map_map. repeat split.
Qed.

(** ** The click listener *)

(** What a step of the listener keeps: distinct ids, whole quantities
    (from [b] to [b']), the session and the user directory. *)
Lemma step_keeps_ret (b b' : Z) (w : World) :
  b <= b' ->
  (uniqueIds (result getCart w) -> uniqueIds (result getCart (exec (ret tt) w)))
  /\ (wholeCart b (result getCart w) -> wholeCart b' (result getCart (exec (ret tt) w)))
  /\ oopsSession (storage (exec (ret tt) w)) = oopsSession (storage w)
  /\ oopsUsers (storage (exec (ret tt) w)) = oopsUsers (storage w).
Proof.
  intro Hb. repeat split; trivial. now apply wholeCart_mono.
Qed.

(** X16. A click, whatever the element clicked and whatever its
    attributes, keeps the cart well formed: ids stay pairwise distinct,
    whole quantities from 1 up stay whole and from 1 up (a click raises a
    quantity by at most 2), and the session and the user directory are
    not written. *)
Theorem onDocumentClick_keeps (parseFloat : option string -> JSNumber.t)
    (target : Target) (bound : Z) (w : World) :
  1 <= bound -> bound + 2 < 2 ^ 53 ->
  uniqueIds (result getCart w) ->
  wholeCart bound (result getCart w) ->
  let w' := exec (onDocumentClick parseFloat target) w in
  uniqueIds (result getCart w')
  /\ wholeCart (bound + 2) (result getCart w')
  /\ oopsSession (storage w') = oopsSession (storage w)
  /\ oopsUsers (storage w') = oopsUsers (storage w).
Proof.
  intros Hbound Hroom Hunique Hwhole w'; subst w'.
  change (2 ^ 53) with 9007199254740992 in Hroom.
  unfold onDocumentClick. rewrite !exec_bind.
  set (add := if contains target "add-to-cart" then _ else ret tt).
  set (w1 := exec add w).
  assert (H1 : uniqueIds (result getCart w1)
               /\ wholeCart (bound + 1) (result getCart w1)
               /\ oopsSession (storage w1) = oopsSession (storage w)
               /\ oopsUsers (storage w1) = oopsUsers (storage w)).
  { assert (Hnone : uniqueIds (result getCart (exec (ret tt) w))
               /\ wholeCart (bound + 1) (result getCart (exec (ret tt) w))
               /\ oopsSession (storage (exec (ret tt) w)) = oopsSession (storage w)
               /\ oopsUsers (storage (exec (ret tt) w)) = oopsUsers (storage w)).
    { destruct (step_keeps_ret bound (bound + 1) w ltac:(lia)) as (A & B & C & D).
      auto. }
    unfold w1, add.
    destruct (contains target "add-to-cart"); [|exact Hnone].
    destruct (dataId target) as [id|]; [|exact Hnone].
    destruct (dataName target) as [name|]; [|exact Hnone].
    destruct (_ && _); [|exact Hnone].
    split; [now apply uniqueIds_addToCart|].
    split; [apply wholeCart_addToCart; trivial;
            change (2 ^ 53) with 9007199254740992; lia|].
    apply storage_addToCart. }
  destruct H1 as (U1 & W1 & S1 & D1).
  set (qty := if contains target "qty-btn" then _ else ret tt).
  set (w2 := exec qty w1).
  assert (H2 : uniqueIds (result getCart w2)
               /\ wholeCart (bound + 2) (result getCart w2)
               /\ oopsSession (storage w2) = oopsSession (storage w1)
               /\ oopsUsers (storage w2) = oopsUsers (storage w1)).
  { assert (Hnone : uniqueIds (result getCart (exec (ret tt) w1))
               /\ wholeCart (bound + 2) (result getCart (exec (ret tt) w1))
               /\ oopsSession (storage (exec (ret tt) w1)) = oopsSession (storage w1)
               /\ oopsUsers (storage (exec (ret tt) w1)) = oopsUsers (storage w1)).
    { destruct (step_keeps_ret (bound + 1) (bound + 2) w1 ltac:(lia)) as (A & B & C & D).
      auto. }
    unfold w2, qty.
    destruct (contains target "qty-btn"); [|exact Hnone].
    destruct (dataId target) as [id|]; [|exact Hnone].
    destruct (dataAction target) as [action|]; [|exact Hnone].
    destruct (_ && _); [|exact Hnone].
    split; [now apply uniqueIds_changeQuantity|].
    split; [|apply storage_changeQuantity].
    destruct (String.eqb action "increase");
      apply (wholeCart_changeQuantity (bound + 1)); trivial;
      try (change (2 ^ 53) with 9007199254740992); lia. }
  destruct H2 as (U2 & W2 & S2 & D2).
  set (remove := if contains target "remove-btn" then _ else ret tt).
  assert (H3 : uniqueIds (result getCart (exec remove w2))
               /\ wholeCart (bound + 2) (result getCart (exec remove w2))
               /\ oopsSession (storage (exec remove w2)) = oopsSession (storage w2)
               /\ oopsUsers (storage (exec remove w2)) = oopsUsers (storage w2)).
  { assert (Hnone : uniqueIds (result getCart (exec (ret tt) w2))
               /\ wholeCart (bound + 2) (result getCart (exec (ret tt) w2))
               /\ oopsSession (storage (exec (ret tt) w2)) = oopsSession (storage w2)
               /\ oopsUsers (storage (exec (ret tt) w2)) = oopsUsers (storage w2)).
    { repeat split; trivial. }
    unfold remove.
    destruct (contains target "remove-btn"); [|exact Hnone].
    destruct (dataId target) as [id|]; [|exact Hnone].
    destruct (negb (falsy id)); [|exact Hnone].
    split; [rewrite getCart_removeFromCart; now apply uniqueIds_filter|].
    split; [now apply wholeCart_removeFromCart|].
    now rewrite storage_removeFromCart. }
  destruct H3 as (U3 & W3 & S3 & D3).
  repeat split; trivial; congruence.
Qed.

Lemma falsy_false (s : string) : s <> "" -> falsy s = false.
Proof. destruct s; [congruence|reflexivity]. Qed.

(** X17. The click listener acts only on elements of its three classes
    that carry a non-empty [data-id]: without one, or on any other
    element, a click changes nothing.  A quantity button decreases unless
    its action reads "increase" exactly; a remove button removes its line;
    an add-to-cart button adds its product with the price read from its
    attribute, and does nothing when that price is not a number.  For a
    guest a click on an add-to-cart button leaves the cart record as it
    was. *)
Theorem onDocumentClick_buttons (parseFloat : option string -> JSNumber.t)
    (w : World) :
  let click := onDocumentClick parseFloat in
  (forall target,
      contains target "add-to-cart" = false ->
      contains target "qty-btn" = false ->
      contains target "remove-btn" = false ->
      exec (click target) w = w)
  /\ (forall classes name price action,
        exec (click (mkTarget classes None name price action)) w = w
        /\ exec (click (mkTarget classes (Some "") name price action)) w = w)
  /\ (forall id action,
        id <> "" -> action <> "" ->
        exec (click (mkTarget ["qty-btn"] (Some id) None None (Some action))) w
        = exec (changeQuantity id (if String.eqb action "increase"
                                   then JSNumber.ofZ 1 else JSNumber.ofZ (-1))) w)
  /\ (forall id,
        id <> "" ->
        exec (click (removeButton id)) w = exec (removeFromCart id) w)
  /\ (forall id name price,
        id <> "" -> name <> "" ->
        exec (click (addButton id name price)) w
        = if isNaN (parseFloat (Some price)) then w
          else exec (addToCart (Product.mk id name (parseFloat (Some price)))) w)
  /\ (forall id name price,
        result isLoggedIn w = false ->
        oopsCart (storage (exec (click (addButton id name price)) w))
        = oopsCart (storage w)).
Proof.
  intro click; subst click.
  assert (Hadd : forall id name price,
            id <> "" -> name <> "" ->
            exec (onDocumentClick parseFloat (addButton id name price)) w
            = if isNaN (parseFloat (Some price)) then w
              else exec (addToCart (Product.mk id name (parseFloat (Some price)))) w).
  { intros id name price Hid Hname.
    unfold onDocumentClick, addButton. rewrite !exec_bind.
    cbn [contains classList existsb dataId dataName dataPrice dataAction].
    change (String.eqb "add-to-cart" "add-to-cart") with true.
    change (String.eqb "qty-btn" "add-to-cart") with false.
    change (String.eqb "remove-btn" "add-to-cart") with false.
    cbn [orb]. rewrite (falsy_false id Hid), (falsy_false name Hname). cbn [negb andb].
    destruct (isNaN _); reflexivity. }
  split; [|split; [|split; [|split; [|split]]]].
  - intros target Ha Hq Hr.
    unfold onDocumentClick. rewrite !exec_bind, Ha, Hq, Hr. reflexivity.
  - intros classes name price action.
    unfold onDocumentClick. rewrite !exec_bind.
    cbn [dataId dataName dataPrice dataAction falsy negb andb].
    split.
    + destruct (contains _ "add-to-cart"), (contains _ "qty-btn"),
        (contains _ "remove-btn"); reflexivity.
    + destruct (contains _ "add-to-cart"), (contains _ "qty-btn"),
        (contains _ "remove-btn"); try reflexivity;
        destruct name, action; reflexivity.
  - intros id action Hid Haction.
    unfold onDocumentClick. rewrite !exec_bind.
    cbn [contains classList existsb dataId dataName dataPrice dataAction].
    change (String.eqb "add-to-cart" "qty-btn") with false.
    change (String.eqb "qty-btn" "qty-btn") with true.
    change (String.eqb "remove-btn" "qty-btn") with false.
    cbn [orb]. rewrite (falsy_false id Hid), (falsy_false action Haction).
    reflexivity.
  - intros id Hid.
    unfold onDocumentClick, removeButton. rewrite !exec_bind.
    cbn [contains classList existsb dataId dataName dataPrice dataAction].
    change (String.eqb "add-to-cart" "remove-btn") with false.
    change (String.eqb "qty-btn" "remove-btn") with false.
    change (String.eqb "remove-btn" "remove-btn") with true.
    cbn [orb]. rewrite (falsy_false id Hid).
    reflexivity.
  - exact Hadd.
  - intros id name price Hguest.
    assert (Hsame : forall m : M unit,
              (m = ret tt \/ exists product, m = addToCart product) ->
              oopsCart (storage (exec m w)) = oopsCart (storage w)).
    { intros m [->|[product ->]]; [reflexivity|].
      now rewrite (proj1 (addToCart_guest_storage product w Hguest)). }
    unfold onDocumentClick, addButton. rewrite !exec_bind.
    cbn [contains classList existsb dataId dataName dataPrice dataAction].
    change (String.eqb "add-to-cart" "add-to-cart") with true.
    change (String.eqb "qty-btn" "add-to-cart") with false.
    change (String.eqb "remove-btn" "add-to-cart") with false.
    cbn [orb].
    apply Hsame. destruct (_ && _); eauto.
Qed.

(** ** The further properties at work on concrete worlds *)

Lemma removeFromCart_spec_witness :
  result getCart (exec (removeFromCart "b") stockWorld)
  = [CartItem.mk "a" "Test kit" (JSNumber.ofZ 10) (JSNumber.ofZ 3);
     CartItem.mk "s" "Swab" (JSNumber.decimal 35 1) (JSNumber.ofZ 109)]
  /\ oopsCart (storage (exec (removeFromCart "b") stockWorld))
     = Some (result getCart (exec (removeFromCart "b") stockWorld))
  /\ result getCart (exec (removeFromCart "z") stockWorld) = result getCart stockWorld.
Proof.
  assert (Hjson : jsonCart (result getCart stockWorld) = true)
    by (vm_compute; reflexivity).
  pose proof (removeFromCart_spec "b" stockWorld Hjson) as Hb. cbv zeta in Hb.
  destruct Hb as (Hfilter & _ & _ & _ & Hstore & _).
  pose proof (removeFromCart_spec "z" stockWorld Hjson) as Hz. cbv zeta in Hz.
  destruct Hz as (_ & _ & _ & _ & _ & Habsent & _).
  split; [|split].
  - rewrite Hfilter. vm_compute. reflexivity.
  - exact Hstore.
  - apply Habsent. cbn. intuition discriminate.
Defined.

Lemma register_then_login_witness :
  result (loginUser (User.email buyer) (User.password buyer))
         (exec (registerUser buyer) guestWorld) = true.
Proof.
  pose proof (register_then_login buyer guestWorld buyer eq_refl) as H.
  cbv zeta in H. destruct H as (Hlogin & _). exact Hlogin.
Defined.

Lemma registerUser_directory_witness :
  result getUsers (exec (registerUser clerk) shopWorld) = [buyer; clerk]
  /\ uniqueEmails (result getUsers (exec (registerUser clerk) shopWorld))
  /\ result getUsers (exec (registerUser buyer) shopWorld) = [buyer]
  /\ uniqueEmails (result getUsers (exec (registerUser buyer) shopWorld)).
Proof.
  assert (Hu : uniqueEmails (result getUsers shopWorld)).
  { repeat constructor. intros []. }
  pose proof (registerUser_directory clerk shopWorld) as Hclerk. cbv zeta in Hclerk.
  destruct Hclerk as (Hgrow & Hunique).
  pose proof (registerUser_directory buyer shopWorld) as Hbuyer. cbv zeta in Hbuyer.
  destruct Hbuyer as (Hsame & Hunique').
  split; [|split; [exact (Hunique Hu)|split; [|exact (Hunique' Hu)]]].
  - destruct Hgrow as [Hgrow|Hgrow]; [|exact Hgrow].
    exfalso. revert Hgrow. vm_compute. discriminate.
  - destruct Hsame as [Hsame|Hsame]; [exact Hsame|].
    exfalso. revert Hsame. vm_compute. discriminate.
Defined.

Lemma checkoutSubmit_spec_witness :
  trace (exec renderCheckout (exec checkoutSubmit shopWorld))
  = trace (exec checkoutSubmit shopWorld) ++ blockedBy EmptyCart.
Proof.
  pose proof (checkoutSubmit_spec shopWorld) as H. cbv zeta in H.
  destruct H as (_ & _ & _ & Hblocked). apply Hblocked; reflexivity.
Defined.

Lemma addToCart_count_witness :
  sumQuantity (result getCart
                 (exec (addToCart (Product.mk "b" "Refill" (JSNumber.ofZ 4))) cartWorld))
  = JSNumber.ofZ (totalOf [3] + 1).
Proof.
  pose proof (addToCart_count (Product.mk "b" "Refill" (JSNumber.ofZ 4)) cartWorld [3]) as H.
  cbv zeta in H. destruct H as (Hsum & _).
  - reflexivity.
  - split; [reflexivity|]. split; [repeat constructor; lia|].
    vm_compute. reflexivity.
  - vm_compute. reflexivity.
  - exact Hsum.
Defined.

Lemma cartWorld_whole : wholeCart 3 (result getCart cartWorld).
Proof.
  constructor; [|constructor].
  exists 3. split; [reflexivity|lia].
Defined.

Lemma wholeCart_invariant_witness :
  wholeCart (3 + 1)
    (result getCart (exec (changeQuantity "a" (JSNumber.ofZ 1)) cartWorld)).
Proof.
  destruct (wholeCart_invariant 3 cartWorld) as (_ & Hup & _).
  - lia.
  - vm_compute. reflexivity.
  - exact cartWorld_whole.
  - apply Hup.
Defined.


Lemma checkout_link_agrees_witness :
  exists rows summary,
    rendered renderCart shopCartPage = [CartContainerHTML (CartTable rows summary)]
    /\ (checkoutLinkEnabled summary = true ->
        rendered renderCheckout shopWorld = readyWith (result getCart shopCartPage))
    /\ (checkoutLinkEnabled summary = false ->
        rendered renderCheckout shopWorld = blockedBy BelowMinimum).
Proof.
  apply (checkout_link_agrees shopCartPage shopWorld); try reflexivity.
  discriminate.
Defined.

Lemma sixty_whole : wholeQuantities (singleItem "a" "Test kit" 10 60) [60].
Proof.
  split; [reflexivity|]. split; [repeat constructor; lia|].
  vm_compute. reflexivity.
Defined.

Lemma twoLines_whole : wholeQuantities twoLines [120; 180].
Proof.
  split; [reflexivity|]. split; [repeat constructor; lia|].
  vm_compute. reflexivity.
Defined.

Lemma full_price_below_first_tier_witness :
  discountRate (renderCart_pricing (singleItem "a" "Test kit" 10 60)) = JSNumber.ofZ 0
  /\ grandTotalText (renderCart_pricing (singleItem "a" "Test kit" 10 60))
     = JSNumber.toFixed 2 (subtotal (renderCart_pricing (singleItem "a" "Test kit" 10 60))).
Proof.
  pose proof (full_price_below_first_tier (singleItem "a" "Test kit" 10 60) [60]
                sixty_whole) as H.
  cbv zeta in H. destruct H as (_ & Hrate & _ & _ & Htext).
  - vm_compute. reflexivity.
  - vm_compute. reflexivity.
  - split; [exact Hrate|exact Htext].
Defined.

Lemma breakdown_labels_witness :
  breakdownOf (subtotal (renderCart_pricing twoLines))
              (discountRate (renderCart_pricing twoLines))
              (discountAmount (renderCart_pricing twoLines))
  = Some (mkBreakdown (JSNumber.toFixed 2 (subtotal (renderCart_pricing twoLines)))
                      (JSNumber.Digits (percentLabel (totalOf [120; 180])))
                      (JSNumber.toFixed 2 (discountAmount (renderCart_pricing twoLines)))).
Proof.
  pose proof (breakdown_labels twoLines [120; 180] twoLines_whole) as H.
  cbv zeta in H. destruct H as (_ & Hlabel).
  - vm_compute. discriminate.
  - exact Hlabel.
Defined.

Lemma discountRate_monotone_witness :
  JSNumber.ge (discountRate (renderCart_pricing twoLines))
              (discountRate (renderCart_pricing (singleItem "a" "Test kit" 10 60)))
  = true.
Proof.
  destruct (discountRate_monotone (singleItem "a" "Test kit" 10 60) twoLines
              [60] [120; 180] sixty_whole twoLines_whole) as (Hle & _).
  - vm_compute. discriminate.
  - exact Hle.
Defined.

Lemma onDocumentClick_keeps_witness :
  uniqueIds (result getCart (exec (onDocumentClick parsePrice (increaseButton "a")) cartWorld))
  /\ wholeCart (3 + 2)
       (result getCart (exec (onDocumentClick parsePrice (increaseButton "a")) cartWorld)).
Proof.
  pose proof (onDocumentClick_keeps parsePrice (increaseButton "a") 3 cartWorld) as H.
  cbv zeta in H. destruct H as (Hunique & Hwhole & _).
  - lia.
  - vm_compute. reflexivity.
  - repeat constructor. intros [].
  - exact cartWorld_whole.
  - split; [exact Hunique|exact Hwhole].
Defined.

Lemma onDocumentClick_buttons_witness :
  exec (onDocumentClick parsePrice (removeButton "a")) cartWorld
  = exec (removeFromCart "a") cartWorld
  /\ oopsCart (storage (exec (onDocumentClick parsePrice (addButton "b" "Refill" "10"))
                          guestWorld))
     = oopsCart (storage guestWorld).
Proof.
  split.
  - pose proof (onDocumentClick_buttons parsePrice cartWorld) as H. cbv zeta in H.
    destruct H as (_ & _ & _ & Hremove & _).
    apply Hremove. discriminate.
  - pose proof (onDocumentClick_buttons parsePrice guestWorld) as H. cbv zeta in H.
    destruct H as (_ & _ & _ & _ & _ & Hguest).
    apply Hguest. reflexivity.
Defined.
